(** * iqtools.tools: a shallow embedding of the helper functions

    The Python module [iqtools/tools.py] is a collection of independent,
    stateless helpers.  Each function modelled below keeps the name it has
    in the source and follows its statements in order.

    Conventions of the embedding:
    - a Python exception is a value of [exn]; a call that may raise returns
      [result A];
    - Python [int]s are [Z]; Python [str]s are [string]s, and the texts
      are taken to be ASCII;
    - Python floats are values of [pyfloat]: a finite float is the rational
      it stands for, [inf] and [nan] are values of their own.  In the
      functions that read and combine measured data a decimal literal
      denotes the rational it spells (or [inf] beyond the range of a
      double) and arithmetic does not round.  In [get_eng_notation], whose
      result depends on the rounding, every operation rounds to binary64
      ([B64]) and overflows as Python's does;
    - calls into numpy, os.path and ElementTree are modelled after the
      documented behaviour of those libraries, next to the function of the
      source that calls them. *)

From Stdlib Require Import ZArith QArith Qround Qabs Qpower Qreduction.
From Stdlib Require Import List String Ascii Bool Lia Lra DecimalString.
From Stdlib Require Import Reals Qreals.
From Stdlib Require Lqa.
Import ListNotations.

Local Open Scope string_scope.
Local Open Scope Z_scope.

(* ================================================================== *)
(** * Exceptions and results *)

Inductive exn : Type :=
| ValueError
| TypeError
| IndexError
| UnboundLocalError
| ZeroDivisionError
| OverflowError.

Inductive result (A : Type) : Type :=
| Ok (a : A)
| Err (e : exn).

Arguments Ok {A} a.
Arguments Err {A} e.

Definition bind {A B : Type} (r : result A) (k : A -> result B) : result B :=
  match r with
  | Ok a => k a
  | Err e => Err e
  end.

Notation "x <- r ;; k" := (bind r (fun x => k))
  (at level 61, r at next level, right associativity).
Notation "' p <- r ;; k" := (bind r (fun p => k))
  (at level 61, p pattern, r at next level, right associativity).

(** [o] when it holds a value, the exception [e] otherwise. *)
Definition or_raise {A : Type} (e : exn) (o : option A) : result A :=
  match o with
  | Some a => Ok a
  | None => Err e
  end.

(** The loop [for a in l: st = body st a], stopping at the first exception. *)
Fixpoint for_each {A S : Type} (body : S -> A -> result S) (l : list A) (st : S)
  : result S :=
  match l with
  | [] => Ok st
  | a :: l' => st' <- body st a ;; for_each body l' st'
  end.

(** [range(n)] *)
Definition range (n : Z) : list Z :=
  map Z.of_nat (seq 0 (Z.to_nat n)).

(* ================================================================== *)
(** * Python strings *)

Module Str.

Definition is_space (c : ascii) : bool :=
  let n := nat_of_ascii c in
  ((9 <=? n) && (n <=? 13) || (28 <=? n) && (n <=? 32))%nat.

Definition is_digit (c : ascii) : bool :=
  let n := nat_of_ascii c in ((48 <=? n) && (n <=? 57))%nat.

Definition digit_val (c : ascii) : Z := Z.of_nat (nat_of_ascii c) - 48.

(** [c.lower()] on the ASCII range *)
Definition lower_ascii (c : ascii) : ascii :=
  let n := nat_of_ascii c in
  if ((65 <=? n) && (n <=? 90))%nat then ascii_of_nat (n + 32) else c.

(** [s.lower()] *)
Fixpoint lower (s : string) : string :=
  match s with
  | EmptyString => EmptyString
  | String c s' => String (lower_ascii c) (lower s')
  end.

(** [s.split(sep)] for a one-character separator: never empty, and an
    empty field stands between two adjacent separators. *)
Fixpoint split (sep : ascii) (s : string) : list string :=
  match s with
  | EmptyString => [EmptyString]
  | String c s' =>
      if Ascii.eqb c sep then EmptyString :: split sep s'
      else match split sep s' with
           | h :: t => String c h :: t
           | [] => [String c EmptyString]
           end
  end.

(** [s.replace(old, new)] for a non-empty [old]: the occurrences are
    found from the left and do not overlap.  [skip] counts the characters
    of an occurrence that are still to be dropped. *)
Fixpoint replace_from (old new : string) (skip : nat) (s : string) : string :=
  match s with
  | EmptyString => EmptyString
  | String c s' =>
      match skip with
      | S k => replace_from old new k s'
      | O =>
          if prefix old s
          then new ++ replace_from old new (String.length old - 1) s'
          else String c (replace_from old new 0 s')
      end
  end.

Definition replace (old new s : string) : string := replace_from old new 0 s.

Fixpoint lstrip_by (p : ascii -> bool) (l : list ascii) : list ascii :=
  match l with
  | c :: l' => if p c then lstrip_by p l' else l
  | [] => []
  end.

Definition strip_by (p : ascii -> bool) (l : list ascii) : list ascii :=
  rev (lstrip_by p (rev (lstrip_by p l))).

(** [s.strip()] *)
Definition strip (s : string) : string :=
  string_of_list_ascii (strip_by is_space (list_ascii_of_string s)).

(** [s.split()]: the maximal runs of characters that are not white space.
    [cur] is the run being read, in reverse. *)
Fixpoint words_from (cur : list ascii) (l : list ascii) : list string :=
  let flush := match cur with
               | [] => []
               | _ => [string_of_list_ascii (rev cur)]
               end in
  match l with
  | [] => flush
  | c :: l' =>
      if is_space c then (flush ++ words_from [] l')%list
      else words_from (c :: cur) l'
  end.

Definition words (s : string) : list string :=
  words_from [] (list_ascii_of_string s).

(** [s.rfind(c)], [-1] when [c] does not occur. *)
Fixpoint rfind_from (c : ascii) (i : Z) (found : Z) (s : string) : Z :=
  match s with
  | EmptyString => found
  | String d s' => rfind_from c (i + 1) (if Ascii.eqb d c then i else found) s'
  end.

Definition rfind (c : ascii) (s : string) : Z := rfind_from c 0 (-1) s.

(** [s[:i]] and [s[i:]] for [0 <= i] *)
Definition take (i : Z) (s : string) : string := substring 0 (Z.to_nat i) s.
Definition drop (i : Z) (s : string) : string :=
  substring (Z.to_nat i) (String.length s - Z.to_nat i) s.

(** [str(n)] for an int *)
Definition of_Z (n : Z) : string := NilZero.string_of_int (Z.to_int n).

Definition nonempty (s : string) : bool :=
  match s with EmptyString => false | _ => true end.

End Str.

(* ================================================================== *)
(** * Numbers *)

(** A Python float, idealised: a finite float is the rational it stands
    for. *)
Inductive pyfloat : Type :=
| Finite (q : Q)
| Inf (negative : bool)
| NaN.

Definition fin (q : Q) : pyfloat := Finite (Qred q).

Definition pow10 (e : Z) : Q := Qpower (10 # 1) e.

(** ** Binary64

    Where what a function returns depends on how its floats are rounded,
    a finite float is the rational that a binary64 number stands for, and
    every operation rounds its exact result to the nearest such number,
    ties to even, as IEEE 754 has it. *)
Module B64.

Definition pow2 (k : Z) : Q := Qpower (2 # 1) k.

(** [floor (log2 q)] for [0 < q] *)
Definition ilog2 (q : Q) : Z :=
  let k := Z.log2 (Qnum q) - Z.log2 (Z.pos (Qden q)) in
  if Qle_bool (pow2 k) q then k else k - 1.

(** [floor (log10 q)] for [0 < q], from an estimate that is off by at
    most a few units *)
Fixpoint settle10 (fuel : nat) (q : Q) (k : Z) : Z :=
  match fuel with
  | O => k
  | S fuel' =>
      if negb (Qle_bool (pow10 k) q) then settle10 fuel' q (k - 1)
      else if Qle_bool (pow10 (k + 1)) q then settle10 fuel' q (k + 1)
      else k
  end.

Definition ilog10 (q : Q) : Z := settle10 4 q (ilog2 q * 30103 / 100000).

(** The integer nearest to [q], the even one of two equally near. *)
Definition nearest_even (q : Q) : Z :=
  let f := Qfloor q in
  match Qcompare (q - inject_Z f) (1 # 2) with
  | Lt => f
  | Gt => f + 1
  | Eq => if Z.even f then f else f + 1
  end.

(** The binary64 number nearest to [q], were the exponent range not
    bounded above: 53 significant bits, and below [2^-1022] multiples of
    [2^-1074]. *)
Definition round (q : Q) : Q :=
  if Qeq_bool q 0 then 0%Q
  else
    let a := Qabs q in
    let e := Z.max (ilog2 a - 52) (-1074) in
    let m := nearest_even (a / pow2 e) in
    Qred ((if Qle_bool 0 q then 1 else -1) * inject_Z m * pow2 e).

(** The float nearest to [q]: [inf] once the rounded magnitude reaches
    [2^1024]. *)
Definition of_Q (q : Q) : pyfloat :=
  let r := round q in
  if Qle_bool (pow2 1024) (Qabs r) then Inf (negb (Qle_bool 0 q))
  else Finite r.

(** *** [repr]: the shortest decimal string that rounds to the float *)

Fixpoint strip_zeros (fuel : nat) (m : Z) : Z :=
  match fuel with
  | O => m
  | S fuel' =>
      if (0 <? m) && (m mod 10 =? 0) then strip_zeros fuel' (m / 10) else m
  end.

(** The number of [p] significant digits, the first of weight [10^e10],
    that rounds to [x], if there is one; the nearer to [x] of two. *)
Definition candidate (x : Q) (e10 : Z) (p : Z) : option Z :=
  let s := pow10 (e10 - p + 1) in
  let lo := Qfloor (x / s) in
  let hi := lo + 1 in
  let ok m := Qeq_bool (round (inject_Z m * s)) x in
  let dlo := (x - inject_Z lo * s)%Q in
  let dhi := (inject_Z hi * s - x)%Q in
  match ok lo, ok hi with
  | true, true => Some (if Qle_bool dlo dhi then lo else hi)
  | true, false => Some lo
  | false, true => Some hi
  | false, false => None
  end.

Fixpoint shortest (fuel : nat) (x : Q) (e10 : Z) (p : Z) : Z * Z :=
  match fuel with
  | O => (0, 0)
  | S fuel' =>
      match candidate x e10 p with
      | Some m => (m, p)
      | None => shortest fuel' x e10 (p + 1)
      end
  end.

(** The digits of the shortest string for [0 < x], without trailing
    zeros, and the position of the decimal point: [x] is [0.d1d2...]
    times [10^decpt]. *)
Definition digits_of (x : Q) : string * Z :=
  let e10 := ilog10 x in
  let (m, p) := shortest 17 x e10 1 in
  let ds := Str.of_Z (strip_zeros 20 m) in
  let decpt := e10 + 1 + (if m =? 10 ^ p then 1 else 0) in
  (ds, decpt).

Definition zeros (n : Z) : string :=
  string_of_list_ascii (repeat "0"%char (Z.to_nat n)).

(** [repr(x)] of a finite float: positional notation when the decimal
    point falls within [-3 .. 16], exponent notation otherwise. *)
Definition repr (x : Q) : string :=
  if Qeq_bool x 0 then "0.0"
  else
    let sign := if Qle_bool 0 x then "" else "-" in
    let (ds, decpt) := digits_of (Qabs x) in
    let n := Z.of_nat (String.length ds) in
    let e := decpt - 1 in
    let mant :=
      match ds with
      | String c EmptyString => String c EmptyString
      | String c rest => String c ("." ++ rest)
      | EmptyString => EmptyString
      end in
    let body :=
      if ((decpt <=? -4)%Z || (16 <? decpt)%Z)%bool then
        mant ++ "e" ++ (if (e <? 0)%Z then "-" else "+")
        ++ (if (Z.abs e <? 10)%Z then "0" else "") ++ Str.of_Z (Z.abs e)
      else if (decpt <=? 0)%Z then "0." ++ zeros (- decpt) ++ ds
      else if (n <=? decpt)%Z then ds ++ zeros (decpt - n) ++ ".0"
      else substring 0 (Z.to_nat decpt) ds ++ "."
           ++ substring (Z.to_nat decpt) (Z.to_nat (n - decpt)) ds in
    sign ++ body.

End B64.

Module Num.

(** The white space [int] and [float] skip at both ends of an ASCII
    string: tab, line feed, vertical tab, form feed, carriage return and
    space. *)
Definition is_space (c : ascii) : bool :=
  let n := nat_of_ascii c in
  (((9 <=? n) && (n <=? 13)) || (n =? 32))%nat.

(** From this magnitude on a decimal literal reads as [inf]. *)
Definition overflow : Q := inject_Z (2 ^ 1024 - 2 ^ 970).

(** The float a decimal literal of value [q] reads as. *)
Definition literal (q : Q) : pyfloat :=
  if Qle_bool overflow (Qabs q) then Inf (negb (Qle_bool 0 q)) else fin q.

(** A run of digits in which single underscores may separate digits:
    the digits, most significant first, and what follows the run. *)
Fixpoint span_digits (l : list ascii) : list ascii * list ascii :=
  match l with
  | c :: l' =>
      if Str.is_digit c || Ascii.eqb c "_"
      then let (d, r) := span_digits l' in (c :: d, r)
      else ([], l)
  | [] => ([], [])
  end.

(** No underscore first, last, or next to another one. *)
Fixpoint grouped (prev_digit : bool) (l : list ascii) : bool :=
  match l with
  | [] => prev_digit
  | c :: l' =>
      if Ascii.eqb c "_" then prev_digit && grouped false l'
      else grouped true l'
  end.

Definition digits_of (l : list ascii) : list Z :=
  map Str.digit_val (filter Str.is_digit l).

Definition value_of (ds : list Z) : Z :=
  fold_left (fun acc d => 10 * acc + d) ds 0.

(** The digit run at the head of [l]; [None] when it is ill-grouped.  An
    empty run is accepted here and is ruled out by the callers. *)
Definition digit_run (l : list ascii) : option (list Z * list ascii) :=
  let (d, r) := span_digits l in
  match d with
  | [] => Some ([], r)
  | _ => if grouped false d then Some (digits_of d, r) else None
  end.

Definition sign_of (l : list ascii) : bool * list ascii :=
  match l with
  | c :: l' =>
      if Ascii.eqb c "-" then (true, l')
      else if Ascii.eqb c "+" then (false, l')
      else (false, l)
  | [] => (false, [])
  end.

Definition signed (neg : bool) (z : Z) : Z := if neg then - z else z.

(** [int(s)] in base ten; [None] stands for [ValueError]. *)
Definition int_of_string (s : string) : option Z :=
  let l := Str.strip_by is_space (list_ascii_of_string s) in
  let (neg, l) := sign_of l in
  match digit_run l with
  | Some (d :: ds, []) => Some (signed neg (value_of (d :: ds)))
  | _ => None
  end.

(** The exponent part of a float literal: absent, or [e], a sign and a
    non-empty digit run that ends the literal. *)
Definition exponent_of (l : list ascii) : option Z :=
  match l with
  | [] => Some 0
  | c :: l' =>
      if Ascii.eqb c "e" || Ascii.eqb c "E" then
        let (neg, l'') := sign_of l' in
        match digit_run l'' with
        | Some (d :: ds, []) => Some (signed neg (value_of (d :: ds)))
        | _ => None
        end
      else None
  end.

(** The unsigned decimal literal [digits [. digits] [exponent]] or
    [. digits [exponent]], as a rational. *)
Definition decimal_of (l : list ascii) : option Q :=
  match digit_run l with
  | None => None
  | Some (ip, r) =>
      let after_point :=
        match r with
        | c :: r' =>
            if Ascii.eqb c "." then
              match digit_run r' with
              | Some (fp, r'') => Some (fp, r'')
              | None => None
              end
            else Some ([], r)
        | [] => Some ([], [])
        end in
      match after_point with
      | None => None
      | Some (fp, r') =>
          match (ip ++ fp)%list with
          | [] => None
          | ds =>
              match exponent_of r' with
              | Some e =>
                  Some (inject_Z (value_of ds)
                        * pow10 (e - Z.of_nat (List.length fp)))%Q
              | None => None
              end
          end
      end
  end.

(** [float(s)]; [None] stands for [ValueError]. *)
Definition float_of_string (s : string) : option pyfloat :=
  let l := Str.strip_by is_space (list_ascii_of_string s) in
  let (neg, l) := sign_of l in
  let word := Str.lower (string_of_list_ascii l) in
  if (word =? "inf")%string || (word =? "infinity")%string then Some (Inf neg)
  else if (word =? "nan")%string then Some NaN
  else match decimal_of l with
       | Some q => Some (literal (if neg then - q else q)%Q)
       | None => None
       end.

(** [int(x)] for a finite float: truncation towards zero. *)
Definition trunc (q : Q) : Z :=
  if Qle_bool 0 q then Qfloor q else - Qfloor (- q).

End Num.

(** Arithmetic of idealised floats; [inf] and [nan] follow IEEE 754. *)
Module F.

Definition zero : pyfloat := Finite 0.

Definition of_Z (z : Z) : pyfloat := fin (inject_Z z).

Definition neg (a : pyfloat) : pyfloat :=
  match a with
  | Finite x => fin (- x)
  | Inf s => Inf (negb s)
  | NaN => NaN
  end.

Definition add (a b : pyfloat) : pyfloat :=
  match a, b with
  | Finite x, Finite y => fin (x + y)
  | NaN, _ | _, NaN => NaN
  | Inf s, Inf t => if Bool.eqb s t then Inf s else NaN
  | Inf s, Finite _ | Finite _, Inf s => Inf s
  end.

Definition sub (a b : pyfloat) : pyfloat := add a (neg b).

Definition is_neg (q : Q) : bool := negb (Qle_bool 0 q).

Definition mul (a b : pyfloat) : pyfloat :=
  match a, b with
  | Finite x, Finite y => fin (x * y)
  | NaN, _ | _, NaN => NaN
  | Inf s, Inf t => Inf (xorb s t)
  | Inf s, Finite y | Finite y, Inf s =>
      if Qeq_bool y 0 then NaN else Inf (xorb s (is_neg y))
  end.

(** [a / d] for a float [a] and a positive int [d] *)
Definition div_pos (a : pyfloat) (d : Z) : pyfloat :=
  match a with
  | Finite x => fin (x / inject_Z d)
  | _ => a
  end.

(** [a == 0] *)
Definition is_zero (a : pyfloat) : bool :=
  match a with
  | Finite x => Qeq_bool x 0
  | _ => false
  end.

End F.


(* ================================================================== *)
(** * get_iq_object *)

(** [genericpath._splitext] for [sep = '/'], no [altsep], [extsep = '.']:
    the loop looks for a character other than a dot between the last
    separator and the last dot. *)
Fixpoint has_non_dot (fuel : nat) (filenameIndex : Z) (p : string) : bool :=
  match fuel with
  | O => false
  | S fuel' =>
      match String.get (Z.to_nat filenameIndex) p with
      | Some c =>
          if negb (Ascii.eqb c ".") then true
          else has_non_dot fuel' (filenameIndex + 1) p
      | None => true
      end
  end.

(** [os.path.splitext(p)] *)
Definition splitext (p : string) : string * string :=
  let sepIndex := Str.rfind "/" p in
  let dotIndex := Str.rfind "." p in
  if (sepIndex <? dotIndex)
     && has_non_dot (Z.to_nat (dotIndex - (sepIndex + 1))) (sepIndex + 1) p
  then (Str.take dotIndex p, Str.drop dotIndex p)
  else (p, EmptyString).

(** The data classes the dispatcher instantiates live in sibling modules of
    the package ([csvdata], [bindata], ...).  Their constructors are taken
    as parameters: each receives the file name(s) and may raise. *)
Record iq_classes (IQ : Type) : Type := {
  CSVData : string -> result IQ;
  BINData : string -> result IQ;
  WAVData : string -> result IQ;
  IQTData : string -> result IQ;
  TIQData : string -> result IQ;
  TDMSData : string -> result IQ;
  TCAPData : string -> string -> result IQ;
  XDATData : string -> string -> result IQ
}.

Arguments CSVData {IQ}.
Arguments BINData {IQ}.
Arguments WAVData {IQ}.
Arguments IQTData {IQ}.
Arguments TIQData {IQ}.
Arguments TDMSData {IQ}.
Arguments TCAPData {IQ}.
Arguments XDATData {IQ}.

(** The extensions some branch of [get_iq_object] compares with. *)
Definition recognized_extensions : list string :=
  [".txt"; ".csv"; ".bin"; ".wav"; ".iqt"; ".iq"; ".tiq"; ".tdms"; ".dat";
   ".xdat"].

(** [header_filename] when it is truthy: neither [None] nor empty. *)
Definition truthy (header_filename : option string) : option string :=
  match header_filename with
  | Some h => if Str.nonempty h then Some h else None
  | None => None
  end.

(** One [if file_extension.lower() == e: iq_data = cls(filename)]. *)
Definition branch {IQ : Type} (hit : bool) (cls : string -> result IQ)
  (filename : string) (iq_data : option IQ) : result (option IQ) :=
  if hit then d <- cls filename ;; Ok (Some d) else Ok iq_data.

(** [get_iq_object(filename, header_filename=None)]; the calls to the
    logger are left out.  The value [None] of the source is [Ok None]. *)
Definition get_iq_object {IQ : Type} (cls : iq_classes IQ) (filename : string)
  (header_filename : option string) : result (option IQ) :=
  let file_extension := snd (splitext filename) in
  let ext := Str.lower file_extension in
  let ext_is e := String.eqb ext e in
  let iq_data := None in
  iq_data <- branch (ext_is ".txt" || ext_is ".csv") (CSVData cls) filename iq_data ;;
  iq_data <- branch (ext_is ".bin") (BINData cls) filename iq_data ;;
  iq_data <- branch (ext_is ".wav") (WAVData cls) filename iq_data ;;
  iq_data <- branch (ext_is ".iqt") (IQTData cls) filename iq_data ;;
  iq_data <- branch (ext_is ".iq") (IQTData cls) filename iq_data ;;
  iq_data <- branch (ext_is ".tiq") (TIQData cls) filename iq_data ;;
  iq_data <- branch (ext_is ".tdms") (TDMSData cls) filename iq_data ;;
  let xdat iq_data :=
    if ext_is ".xdat" then
      match truthy header_filename with
      | None => Ok None
      | Some h => d <- XDATData cls filename h ;; Ok (Some d)
      end
    else Ok iq_data in
  if ext_is ".dat" then
    match truthy header_filename with
    | None => Ok None
    | Some h => d <- TCAPData cls filename h ;; xdat (Some d)
    end
  else xdat iq_data.

(* ================================================================== *)
(** * get_eng_notation *)

(** The dictionary [ref], in the order of its literal. *)
Definition ref : list (Z * string) :=
  [(24, "Y"); (21, "Z"); (18, "E"); (15, "P"); (12, "T"); (9, "G"); (6, "M");
   (3, "k"); (0, ""); (-3, "m"); (-6, "u"); (-9, "n"); (-12, "p");
   (-15, "f"); (-18, "a"); (-21, "z"); (-24, "y")].

(** [ref[num]] for a key of [ref] *)
Fixpoint ref_get (num : Z) (d : list (Z * string)) : string :=
  match d with
  | (k, v) :: d' => if k =? num then v else ref_get num d'
  | [] => EmptyString
  end.

(** [max(l)]; [None] stands for the [ValueError] of an empty argument. *)
Definition py_max (l : list Z) : option Z :=
  match l with
  | [] => None
  | k :: l' => Some (fold_left Z.max l' k)
  end.

(** A Python number: an [int] of any size, or a [float]. *)
Inductive number : Type :=
| Int (z : Z)
| Flt (x : pyfloat).

(** The operators the function applies to its numbers. *)
Module Py.

(** [v == 0] *)
Definition eq0 (v : number) : bool :=
  match v with
  | Int z => z =? 0
  | Flt (Finite q) => Qeq_bool q 0
  | Flt _ => false
  end.

(** [v < 0] *)
Definition lt0 (v : number) : bool :=
  match v with
  | Int z => z <? 0
  | Flt (Finite q) => negb (Qle_bool 0 q)
  | Flt (Inf negative) => negative
  | Flt NaN => false
  end.

(** [abs(v)] *)
Definition abs (v : number) : number :=
  match v with
  | Int z => Int (Z.abs z)
  | Flt (Finite q) => Flt (Finite (Qabs q))
  | Flt (Inf _) => Flt (Inf false)
  | Flt NaN => Flt NaN
  end.

(** [-v] *)
Definition neg (v : number) : number :=
  match v with
  | Int z => Int (- z)
  | Flt (Finite q) => Flt (Finite (- q))
  | Flt (Inf negative) => Flt (Inf (negb negative))
  | Flt NaN => Flt NaN
  end.

(** [0 < v] *)
Definition gt0 (v : number) : bool :=
  match v with
  | Int z => 0 <? z
  | Flt (Finite q) => negb (Qle_bool q 0)
  | Flt (Inf negative) => negb negative
  | Flt NaN => false
  end.

(** The value of a number on the extended real line. *)
Definition exact (v : number) : pyfloat :=
  match v with
  | Int z => Finite (inject_Z z)
  | Flt x => x
  end.

(** [a >= b]: Python compares an [int] with a [float] by value, without
    rounding the [int]; a comparison with [nan] is false. *)
Definition ge (a b : number) : bool :=
  match exact a, exact b with
  | NaN, _ | _, NaN => false
  | Inf na, Inf nb => negb na || nb
  | Inf na, Finite _ => negb na
  | Finite _, Inf nb => nb
  | Finite x, Finite y => Qle_bool y x
  end.

(** [10 ** k] for an [int] [k]: an [int] when [k] is not negative, else
    the float [pow(10.0, k)], taken as the double nearest to [10^k]. *)
Definition ten_pow (k : Z) : number :=
  if 0 <=? k then Int (10 ^ k) else Flt (B64.of_Q (pow10 k)).

(** [float(v)]: an [int] beyond the range of a double is refused. *)
Definition to_float (v : number) : result pyfloat :=
  match v with
  | Int z =>
      match B64.of_Q (inject_Z z) with
      | Inf _ => Err OverflowError
      | x => Ok x
      end
  | Flt x => Ok x
  end.

Definition is_zero (x : pyfloat) : bool :=
  match x with
  | Finite q => Qeq_bool q 0
  | _ => false
  end.

Definition negative (x : pyfloat) : bool :=
  match x with
  | Finite q => negb (Qle_bool 0 q)
  | Inf n => n
  | NaN => false
  end.

(** [x * y] on floats *)
Definition float_mul (x y : pyfloat) : pyfloat :=
  match x, y with
  | NaN, _ | _, NaN => NaN
  | Finite a, Finite b => B64.of_Q (a * b)
  | _, _ =>
      if is_zero x || is_zero y then NaN
      else Inf (xorb (negative x) (negative y))
  end.

(** [x / y] on floats *)
Definition float_div (x y : pyfloat) : result pyfloat :=
  if is_zero y then Err ZeroDivisionError
  else
    Ok match x, y with
       | NaN, _ | _, NaN => NaN
       | Finite a, Finite b => B64.of_Q (a / b)
       | Finite _, Inf _ => Finite 0
       | Inf _, Inf _ => NaN
       | Inf n, Finite _ => Inf (xorb n (negative y))
       end.

(** [a / b]: the quotient of two [int]s is rounded once, and refused
    when it is beyond the range of a double; otherwise both sides are
    floats first. *)
Definition truediv (a b : number) : result pyfloat :=
  match a, b with
  | Int x, Int y =>
      if y =? 0 then Err ZeroDivisionError
      else match B64.of_Q (inject_Z x / inject_Z y) with
           | Inf _ => Err OverflowError
           | q => Ok q
           end
  | _, _ => x <- to_float a ;; y <- to_float b ;; float_div x y
  end.

(** [x * b] for a float [x] *)
Definition mul (x : pyfloat) (b : number) : result pyfloat :=
  y <- to_float b ;; Ok (float_mul x y).

(** [int(x)] *)
Definition int (x : pyfloat) : result Z :=
  match x with
  | Finite q => Ok (Num.trunc q)
  | Inf _ => Err OverflowError
  | NaN => Err ValueError
  end.

(** [str(x)], which is [repr(x)], as [format] prints a float *)
Definition str (x : pyfloat) : string :=
  match x with
  | Finite q => B64.repr q
  | Inf n => if n then "-inf" else "inf"
  | NaN => "nan"
  end.

End Py.

(** [get_eng_notation(value, unit='', decimal_place=2)] *)
Definition get_eng_notation (value : number) (unit : string)
  (decimal_place : Z) : result string :=
  if Py.eq0 value then Ok ("0" ++ unit)
  else
    let flag := if Py.lt0 value then "-" else "" in
    num <- or_raise ValueError
             (py_max (filter (fun key => Py.ge (Py.abs value) (Py.ten_pow key))
                        (map fst ref))) ;;
    let mult :=
      if num =? 0 then ""
      else if Str.nonempty unit then ref_get num ref
           else "e" ++ Str.of_Z num in
    q <- Py.truediv (Py.abs value) (Py.ten_pow num) ;;
    p <- Py.mul q (Py.ten_pow decimal_place) ;;
    m <- Py.int p ;;
    r <- Py.truediv (Int m) (Py.ten_pow decimal_place) ;;
    Ok (flag ++ Py.str r ++ mult ++ unit).

(* ================================================================== *)
(** * The spectrogram transform pair *)

(** A two-dimensional array: its shape and its rows. *)
Record matrix (A : Type) : Type := {
  nrows : Z;
  ncols : Z;
  rows : list (list A)
}.

Arguments nrows {A}.
Arguments ncols {A}.
Arguments rows {A}.

(** Row-major cutting of [x] into [n] rows of [l] entries. *)
Fixpoint chunks {A : Type} (n l : nat) (x : list A) : list (list A) :=
  match n with
  | O => []
  | S n' => firstn l x :: chunks n' l (skipn l x)
  end.

Definition mk_matrix {A : Type} (n l : Z) (x : list A) : matrix A :=
  {| nrows := n; ncols := l; rows := chunks (Z.to_nat n) (Z.to_nat l) x |}.

(** [np.reshape(x, (d0, d1))] of a one-dimensional [x].  A negative entry
    of the shape is the one dimension numpy infers from the size; the size
    has to match the shape, [ValueError] otherwise. *)
Definition reshape {A : Type} (x : list A) (d0 d1 : Z) : result (matrix A) :=
  let size := Z.of_nat (List.length x) in
  if (d0 <? 0) && (d1 <? 0) then Err ValueError
  else if d0 <? 0 then
    if (d1 =? 0) || negb (size mod d1 =? 0) then Err ValueError
    else Ok (mk_matrix (size / d1) d1 x)
  else if d1 <? 0 then
    if (d0 =? 0) || negb (size mod d0 =? 0) then Err ValueError
    else Ok (mk_matrix d0 (size / d0) x)
  else if size =? d0 * d1 then Ok (mk_matrix d0 d1 x)
  else Err ValueError.

(** The one-dimensional transforms of [numpy.fft], applied to one row. *)
Class Transform (C : Type) : Type := {
  fft : list C -> list C;
  ifft : list C -> list C
}.

(** [np.fft.fft(sig, axis=1)] and [np.fft.ifft(zz, axis=1)]: numpy refuses
    an axis without data points with a [ValueError], and transforms every
    row otherwise. *)
Definition along_axis1 {C : Type} (f : list C -> list C) (m : matrix C)
  : result (matrix C) :=
  if ncols m <? 1 then Err ValueError
  else Ok {| nrows := nrows m; ncols := ncols m; rows := map f (rows m) |}.

Definition get_cplx_spectrogram {C : Type} `{Transform C} (x : list C)
  (nframes lframes : Z) : result (matrix C) :=
  sig <- reshape x nframes lframes ;;
  zz <- along_axis1 fft sig ;;
  Ok zz.

Definition get_inv_cplx_spectrogram {C : Type} `{Transform C} (zz : matrix C)
  (nframes lframes : Z) : result (list C) :=
  inv_zz <- along_axis1 ifft zz ;;
  inv_zz <- reshape (List.concat (rows inv_zz)) 1 (nframes * lframes) ;;
  or_raise IndexError (nth_error (rows inv_zz) 0).

(* ================================================================== *)
(** * make_test_signal *)

(** [np.arange(start, stop, step)]: [ceil((stop - start) / step)] points
    [start + k * step].  The step and the quotient are exact here; numpy
    takes both from doubles, so that a step such as [1 / 49], which is
    rounded down, gives it one point more. *)
Definition arange (start stop step : Q) : list Q :=
  map (fun k => Qred (start + inject_Z k * step))
      (range (Qceiling ((stop - start) / step))).

(** [a + b] of two arrays of one length *)
Fixpoint array_add (a b : list R) : list R :=
  match a, b with
  | u :: a', v :: b' => (u + v)%R :: array_add a' b'
  | _, _ => []
  end.

(** [np.sin(2 * np.pi * i * f * t)] for the array [t] *)
Definition harmonic (i : Z) (f : Q) (t : list Q) : list R :=
  map (fun tk => sin (2 * PI * IZR i * Q2R f * Q2R tk)) t.

(** [make_test_signal(f, fs, length=1, nharm=0, noise=False)].  The time
    axis is exact; the samples are real numbers.  [normal n] stands for the
    draw [np.random.normal(0, 1, n)]. *)
Definition make_test_signal (normal : nat -> list R) (f fs length : Q)
  (nharm : Z) (noise : bool) : result (list Q * list R) :=
  if Qeq_bool fs 0 then Err ZeroDivisionError
  else
    let t := arange 0 length (1 / fs) in
    let x := repeat 0%R (List.length t) in
    let x := fold_left (fun x i => array_add x (harmonic i f t))
               (range (nharm + 2)) x in
    let x := if noise then array_add x (normal (List.length t)) else x in
    Ok (t, x).

(** The sum of the sinusoids at [f], [2f], ..., [(nharm + 1) f] at the
    time [tk], written as a closed form. *)
Definition harmonic_sum (f : Q) (nharm : Z) (tk : Q) : R :=
  fold_right Rplus 0%R
    (map (fun i => sin (2 * PI * IZR i * Q2R f * Q2R tk))
       (map Z.of_nat (seq 1 (Z.to_nat (nharm + 1))))).

(* ================================================================== *)
(** * linspace and genfromtxt *)

(** [y[-1] = v] *)
Fixpoint set_last {A : Type} (y : list A) (v : A) : list A :=
  match y with
  | [] => []
  | [_] => [v]
  | a :: y' => a :: set_last y' v
  end.

(** [np.linspace(start, stop, num)] with the default [endpoint=True]. *)
Definition linspace (start stop : pyfloat) (num : Z) : result (list pyfloat) :=
  if num <? 0 then Err ValueError
  else
    let div := num - 1 in
    let start := F.mul start (Finite 1) in
    let stop := F.mul stop (Finite 1) in
    let delta := F.sub stop start in
    let y := map F.of_Z (range num) in
    let y :=
      if 0 <? div then
        let step := F.div_pos delta div in
        if F.is_zero step
        then map (fun yk => F.mul (F.div_pos yk div) delta) y
        else map (fun yk => F.mul yk step) y
      else map (fun yk => F.mul yk delta) y in
    let y := map (fun yk => F.add yk start) y in
    Ok (if 1 <? num then set_last y stop else y).

(** What [genfromtxt] returns: an array of dimension zero, one or two. *)
Inductive ndarray : Type :=
| Scalar (v : pyfloat)
| Vec (l : list pyfloat)
| Mat (m : list (list pyfloat)).

(** [len(p)] *)
Definition len (p : ndarray) : result Z :=
  match p with
  | Scalar _ => Err TypeError
  | Vec l => Ok (Z.of_nat (List.length l))
  | Mat m => Ok (Z.of_nat (List.length m))
  end.

(** The characters [genfromtxt] strips from both ends of a line. *)
Definition is_blank (c : ascii) : bool :=
  Ascii.eqb c " " || Ascii.eqb c "013" || Ascii.eqb c "010".

(** The line splitter of [genfromtxt] for the default [comments='#'] and
    [delimiter=None]. *)
Definition split_line (line : string) : list string :=
  let line := hd EmptyString (Str.split "#" line) in
  let line :=
    string_of_list_ascii (Str.strip_by is_blank (list_ascii_of_string line)) in
  if Str.nonempty line then Str.words line else [].

(** The converter of a float column: what [float] does not read is [nan]. *)
Definition loose_float (tok : string) : pyfloat :=
  match Num.float_of_string tok with
  | Some v => v
  | None => NaN
  end.

(** [np.squeeze] of a table with at least one row and one column *)
Definition squeeze (data : list (list pyfloat)) : ndarray :=
  match data with
  | [[v]] => Scalar v
  | [row] => Vec row
  | _ =>
      if forallb (fun r => (List.length r =? 1)%nat) data
      then Vec (map (hd NaN) data)
      else Mat data
  end.

(** [np.genfromtxt(filename, skip_header=n)] on the lines of the file:
    the first [n] lines are dropped, lines without a value are passed
    over, and the first line with values fixes the number of columns. *)
Definition genfromtxt (lines : list string) (skip_header : nat)
  : result ndarray :=
  let table := filter (fun r => negb (List.length r =? 0)%nat)
                 (map split_line (skipn skip_header lines)) in
  match table with
  | [] => Ok (Vec [])
  | first_values :: _ =>
      let nbcols := List.length first_values in
      if forallb (fun r => (List.length r =? nbcols)%nat) table
      then Ok (squeeze (map (map loose_float) table))
      else Err ValueError
  end.

(* ================================================================== *)
(** * read_result_csv *)

(** The locals [center], [start] and [stop]; [None] while unassigned. *)
Record csv_locals : Type := {
  center : option pyfloat;
  start : option pyfloat;
  stop : option pyfloat
}.

Definition no_locals : csv_locals :=
  {| center := None; start := None; stop := None |}.

(** [key in l and len(l) == 3] *)
Definition key_line (key : string) (l : list string) : bool :=
  existsb (String.eqb key) l && (List.length l =? 3)%nat.

(** [float(l[1])] *)
Definition second_float (l : list string) : result pyfloat :=
  s <- or_raise IndexError (nth_error l 1) ;;
  or_raise ValueError (Num.float_of_string s).

(** The body of [for l in cont]. *)
Definition csv_line (st : csv_locals) (l : string) : result csv_locals :=
  let l := Str.split "," l in
  st <- (if key_line "Frequency" l
         then v <- second_float l ;;
              Ok {| center := Some v; start := start st; stop := stop st |}
         else Ok st) ;;
  st <- (if key_line "XStart" l
         then v <- second_float l ;;
              Ok {| center := center st; start := Some v; stop := stop st |}
         else Ok st) ;;
  if key_line "XStop" l
  then v <- second_float l ;;
       Ok {| center := center st; start := start st; stop := Some v |}
  else Ok st.

(** [read_result_csv(filename)] on [cont], the lines of the file as
    [readlines] returns them. *)
Definition read_result_csv (cont : list string)
  : result (list pyfloat * ndarray) :=
  p <- genfromtxt cont 63 ;;
  st <- for_each csv_line cont no_locals ;;
  start <- or_raise UnboundLocalError (start st) ;;
  center <- or_raise UnboundLocalError (center st) ;;
  stop <- or_raise UnboundLocalError (stop st) ;;
  n <- len p ;;
  f <- linspace (F.sub start center) (F.sub stop center) n ;;
  Ok (f, p).

(** ** The metadata lines, in the words of the spec

    The spec describes the scan of [read_result_csv] by the lines it is
    meant for: a metadata line of a key has exactly three comma-separated
    fields, its first token is the key, and its second field is the value.
    These definitions follow that description; the theorems compare them
    with [csv_line], which follows the code. *)

Definition csv_keys : list string := ["Frequency"; "XStart"; "XStop"].

Definition metadata_line (key : string) (l : string) : bool :=
  let fields := Str.split "," l in
  (List.length fields =? 3)%nat && String.eqb (hd EmptyString fields) key.

(** The value a line gives to [key], if it is a metadata line of [key] with
    a numeric second field. *)
Definition line_value (key : string) (l : string) : option pyfloat :=
  if metadata_line key l
  then Num.float_of_string (nth 1 (Str.split "," l) EmptyString)
  else None.

(** The value of [key] in the file: that of its last metadata line. *)
Fixpoint metadata_value (key : string) (cont : list string) : option pyfloat :=
  match cont with
  | [] => None
  | l :: cont' =>
      match metadata_value key cont' with
      | Some v => Some v
      | None => line_value key l
      end
  end.

(** A well-formed line: when it has three fields and one of them is a key,
    the key is its first token and its second field is numeric. *)
Definition well_formed_line (l : string) : bool :=
  let fields := Str.split "," l in
  forallb (fun key =>
             implb (key_line key fields)
               (String.eqb (hd EmptyString fields) key
                && match Num.float_of_string (nth 1 fields EmptyString) with
                   | Some _ => true
                   | None => false
                   end))
    csv_keys.

Definition well_formed (cont : list string) : bool :=
  forallb well_formed_line cont.

(* ================================================================== *)
(** * read_specan_xml *)

(** An element of the tree [et.fromstring] builds: its tag, its text
    ([None] when the element has none) and its children. *)
#[local] Set Warnings "-register-all".
Inductive element : Type :=
| Element (tag : string) (text : option string) (children : list element).

Definition tag_of (e : element) : string :=
  match e with Element t _ _ => t end.

Definition text_of (e : element) : option string :=
  match e with Element _ x _ => x end.

(** The element and its descendants, in document order. *)
Fixpoint descendants (e : element) : list element :=
  match e with
  | Element _ _ cs => e :: flat_map descendants cs
  end.

(** [root.iter(tag=t)] *)
Definition iter (t : string) (root : element) : list element :=
  filter (fun e => String.eqb (tag_of e) t) (descendants root).

(** [parse(elem.text)]: [TypeError] without a text, [ValueError] on a text
    the parser refuses. *)
Definition convert {A : Type} (parse : string -> option A) (e : element)
  : result A :=
  match text_of e with
  | None => Err TypeError
  | Some s => or_raise ValueError (parse s)
  end.

(** [for elem in root.iter(tag=t): v = f(elem)]: the local [v] after the
    loop, [None] while unassigned. *)
Definition assign_each {A : Type} (f : element -> result A) (t : string)
  (root : element) : result (option A) :=
  for_each (fun _ e => v <- f e ;; Ok (Some v)) (iter t root) None.

(** [p[i] = v] *)
Fixpoint setitem {A : Type} (p : list A) (i : nat) (v : A) : result (list A) :=
  match p, i with
  | [], _ => Err IndexError
  | _ :: p', O => Ok (v :: p')
  | a :: p', S i' => p' <- setitem p' i' v ;; Ok (a :: p')
  end.

(** [np.zeros(count)] *)
Definition zeros (count : Z) : result (list pyfloat) :=
  if count <? 0 then Err ValueError
  else Ok (repeat F.zero (Z.to_nat count)).

(** The body of [for elem in iter('y'): p[i] = float(elem.text); i += 1],
    on the pair of [p] and [i]. *)
Definition fill (st : list pyfloat * nat) (elem : element)
  : result (list pyfloat * nat) :=
  let '(p, i) := st in
  v <- convert Num.float_of_string elem ;;
  p <- setitem p i v ;;
  Ok (p, S i).

(** [read_specan_xml(filename)] from the root [et.fromstring] returns. *)
Definition read_specan_xml (xml_tree_root : element)
  : result (list pyfloat * list pyfloat * (option string * option string)) :=
  count <- assign_each (convert Num.int_of_string) "Count" xml_tree_root ;;
  start <- assign_each (convert Num.float_of_string) "XStart" xml_tree_root ;;
  stop <- assign_each (convert Num.float_of_string) "XStop" xml_tree_root ;;
  xunits <- assign_each (fun e => Ok (text_of e)) "XUnits" xml_tree_root ;;
  yunits <- assign_each (fun e => Ok (text_of e)) "YUnits" xml_tree_root ;;
  pwr <- assign_each (convert Num.float_of_string) "y" xml_tree_root ;;
  count <- or_raise UnboundLocalError count ;;
  p <- zeros count ;;
  '(p, i) <- for_each fill (iter "y" xml_tree_root) (p, O) ;;
  start <- or_raise UnboundLocalError start ;;
  stop <- or_raise UnboundLocalError stop ;;
  f <- linspace start stop count ;;
  xunits <- or_raise UnboundLocalError xunits ;;
  yunits <- or_raise UnboundLocalError yunits ;;
  Ok (f, p, (xunits, yunits)).

(** The document declares the scalar [v] under the tag [t]: one element
    carries the tag, and [f] reads [v] from it. *)
Definition declares {A : Type} (f : element -> result A) (t : string)
  (root : element) (v : A) : Prop :=
  exists e, iter t root = [e] /\ f e = Ok v.

(** The elements [es] hold, in order, the floats [vs]. *)
Definition hold (es : list element) (vs : list pyfloat) : Prop :=
  Forall2 (fun e v => convert Num.float_of_string e = Ok v) es vs.

(** The document declares [t] at most once: [Some v] when one element
    carries the tag and [f] reads [v] from it, [None] when no element
    carries it. *)
Definition declares_opt {A : Type} (f : element -> result A) (t : string)
  (root : element) (o : option A) : Prop :=
  match o with
  | Some v => declares f t root v
  | None => iter t root = []
  end.

(** Every element of [es] is read by [f] without an exception. *)
Definition readable {A : Type} (f : element -> result A) (es : list element)
  : Prop :=
  Forall (fun e => exists v, f e = Ok v) es.

(* ================================================================== *)
(** * parse_filename *)

(** [parse_filename(filename)] *)
Definition parse_filename (filename : string)
  : result (string * pyfloat * pyfloat) :=
  let filename := Str.split "_" filename in
  descr <- or_raise IndexError (nth_error filename 0) ;;
  f1 <- or_raise IndexError (nth_error filename 1) ;;
  energy <- or_raise ValueError
              (Num.float_of_string (Str.replace "MeVu" "e6" f1)) ;;
  f2 <- or_raise IndexError (nth_error filename 2) ;;
  current <- or_raise ValueError
               (Num.float_of_string (Str.replace "uA" "e-6" f2)) ;;
  Ok (descr, energy, current).

(** The pattern [<desc>_<value>MeVu_<value>uA_...] of the docstring: the
    description holds no underscore, and a value is a plain decimal
    numeral, made of digits and at most one point. *)
Definition plain_char (c : ascii) : bool :=
  Str.is_digit c || Ascii.eqb c ".".

Definition plain_numeral (v : string) : bool :=
  forallb plain_char (list_ascii_of_string v).

Definition no_underscore (s : string) : bool :=
  forallb (fun c => negb (Ascii.eqb c "_")) (list_ascii_of_string s).

(** The rest of a plain numeral after a digit run: empty, or from the
    point on. *)
Definition at_point (r : list ascii) : Prop :=
  forallb plain_char r = true /\ (r = [] \/ exists r', r = "."%char :: r').

(* ================================================================== *)
(** * read_data_csv *)

(** The line splitter of [genfromtxt] for [comments='#'] and a
    one-character [delimiter]: the fields are not stripped. *)
Definition split_line_at (delimiter : ascii) (line : string) : list string :=
  let line := hd EmptyString (Str.split "#" line) in
  let line :=
    string_of_list_ascii (Str.strip_by is_blank (list_ascii_of_string line)) in
  if Str.nonempty line then Str.split delimiter line else [].

(** [np.genfromtxt(filename, skip_header=n, delimiter=d)] *)
Definition genfromtxt_delimited (lines : list string) (skip_header : nat)
  (delimiter : ascii) : result ndarray :=
  let table := filter (fun r => negb (List.length r =? 0)%nat)
                 (map (split_line_at delimiter) (skipn skip_header lines)) in
  match table with
  | [] => Ok (Vec [])
  | first_values :: _ =>
      let nbcols := List.length first_values in
      if forallb (fun r => (List.length r =? nbcols)%nat) table
      then Ok (squeeze (map (map loose_float) table))
      else Err ValueError
  end.

(** [np.ravel(data)]: the values in row-major order. *)
Definition ravel (data : ndarray) : list pyfloat :=
  match data with
  | Scalar v => [v]
  | Vec l => l
  | Mat m => List.concat m
  end.

(** [a.view(dtype='c16')] of a one-dimensional array of doubles: two
    consecutive values are the real and the imaginary part of one complex
    number; an odd number of values is refused. *)
Fixpoint view_c16 (a : list pyfloat) : result (list (pyfloat * pyfloat)) :=
  match a with
  | [] => Ok []
  | [_] => Err ValueError
  | re :: im :: a' => z <- view_c16 a' ;; Ok ((re, im) :: z)
  end.

(** [read_data_csv(filename)] on the lines of the file. *)
Definition read_data_csv (lines : list string)
  : result (list (pyfloat * pyfloat)) :=
  data <- genfromtxt_delimited lines 10 "," ;;
  view_c16 (ravel data).

(* ================================================================== *)
(** * Sample inputs *)

(** A trace document of the analyzer reduced to what [read_specan_xml]
    reads: the declared count [c], the bounds 0 and 4, the units, and one
    [y] element per entry of [ys]. *)
Definition trace_document (c : string) (ys : list string) : element :=
  Element "Trace" None
    [Element "Count" (Some c) [];
     Element "XStart" (Some "0") [];
     Element "XStop" (Some "4") [];
     Element "XUnits" (Some "Hz") [];
     Element "YUnits" (Some "dBm") [];
     Element "Points" None (map (fun s => Element "y" (Some s) []) ys)].

Definition five_points : list string := ["-80.5"; "-79"; "-3.25"; "-78"; "-81"].

Definition five_values : list pyfloat :=
  [Finite (-161 # 2); Finite (-79); Finite (-13 # 4); Finite (-78);
   Finite (-81)].

(** A result file of the analyzer reduced to what [read_result_csv]
    reads: 63 header lines, three of them metadata lines, and one power
    value per line after them. *)
Definition result_file : list string :=
  (repeat "[Parameters]
" 20
   ++ ["Frequency,2450000000,Hz
"; "XStart,2449999000,Hz
";
       "XStop,2450001000,Hz
"]
   ++ repeat "[Traces]
" 40
   ++ ["-90.5
"; "-91.25
"; "-30
"; "-92
"; "-89.75
"])%list.

(** Trace documents put together from their parts. *)
Definition tagged (t s : string) : element := Element t (Some s) [].

Definition trace_with (scalars ys : list element) : element :=
  Element "Trace" None (scalars ++ [Element "Points" None ys])%list.

Definition bounds_and_units : list element :=
  [tagged "XStart" "0"; tagged "XStop" "4"; tagged "XUnits" "Hz";
   tagged "YUnits" "dBm"].

(** A result file with a given number of header lines in front of the
    metadata lines, and the given data lines. *)
Definition result_file_with (fill : nat) (metadata data : list string)
  : list string :=
  (repeat "[Parameters]
" fill ++ metadata ++ data)%list.

Definition three_keys : list string :=
  ["Frequency,2450000000,Hz
"; "XStart,2449999000,Hz
"; "XStop,2450001000,Hz
"].

(* ================================================================== *)
(** * Properties *)

(** ** Results and loops *)

Lemma eqb_of_not_in (ext : string) (l : list string) (e : string) :
  ~ In ext l -> In e l -> String.eqb ext e = false.
Proof.
  intros Hn Hi. apply String.eqb_neq. intros ->. exact (Hn Hi).
Qed.

(** ** get_iq_object *)

(** C10.  A file name whose extension, in lower case, is none of the
    recognized ones is answered with [None] and no exception, whatever the
    data classes do; so is a file name with the extension [.dat] or [.xdat]
    when no header file name is given. *)
Theorem get_iq_object_none {IQ : Type} (cls : iq_classes IQ)
  (filename : string) (header_filename : option string) :
  let ext := Str.lower (snd (splitext filename)) in
  ~ In ext recognized_extensions
  \/ (In ext [".dat"; ".xdat"] /\ header_filename = None) ->
  get_iq_object cls filename header_filename = Ok None.
Proof.
  intros ext [Hn | [Hi ->]]; unfold get_iq_object; fold ext.
  - repeat match goal with
           | |- context [String.eqb ext ?e] =>
               rewrite (eqb_of_not_in ext recognized_extensions e Hn)
                 by (simpl; tauto)
           end.
    reflexivity.
  - destruct Hi as [<- | [<- | []]]; reflexivity.
Qed.

(** Two file names the theorem applies to: an unknown extension, and a TCAP
    file given in upper case without its header. *)
Lemma get_iq_object_none_witness :
  get_iq_object
    {| CSVData := fun f => Ok f; BINData := fun f => Ok f;
       WAVData := fun f => Ok f; IQTData := fun f => Ok f;
       TIQData := fun f => Ok f; TDMSData := fun f => Ok f;
       TCAPData := fun f _ => Ok f; XDATData := fun f _ => Ok f |}
    "/data/run_01.hdf5" (Some "run_01.txt") = Ok None
  /\ get_iq_object
       {| CSVData := fun f => Ok f; BINData := fun f => Ok f;
          WAVData := fun f => Ok f; IQTData := fun f => Ok f;
          TIQData := fun f => Ok f; TDMSData := fun f => Ok f;
          TCAPData := fun f _ => Ok f; XDATData := fun f _ => Ok f |}
       "/data/run_01.DAT" None = Ok None.
Proof.
  split; apply get_iq_object_none.
  - left. vm_compute. intuition discriminate.
  - right. split; [ vm_compute; tauto | reflexivity ].
Defined.

(** ** get_cplx_spectrogram *)

(** The transform of an array without columns is refused, although its
    size matches the shape. *)
Lemma get_cplx_spectrogram_no_columns {C : Type} `{Transform C} (nframes : Z) :
  0 <= nframes -> get_cplx_spectrogram (@nil C) nframes 0 = Err ValueError.
Proof.
  intros Hn. unfold get_cplx_spectrogram, reshape. simpl.
  destruct (nframes <? 0) eqn:E; [ lia | ].
  rewrite Z.mul_0_r. reflexivity.
Qed.

(** The transform of a full grid. *)
Lemma get_cplx_spectrogram_full {C : Type} `{Transform C} (x : list C)
  (nframes lframes : Z) :
  0 <= nframes -> 1 <= lframes ->
  Z.of_nat (List.length x) = nframes * lframes ->
  get_cplx_spectrogram x nframes lframes
  = Ok {| nrows := nframes; ncols := lframes;
          rows := map fft (chunks (Z.to_nat nframes) (Z.to_nat lframes) x) |}.
Proof.
  intros Hn Hl Hs. unfold get_cplx_spectrogram, reshape.
  destruct (nframes <? 0) eqn:En; [ lia | ].
  destruct (lframes <? 0) eqn:El; [ lia | ]. cbn [andb].
  rewrite (proj2 (Z.eqb_eq _ _) Hs). cbn [bind]. unfold along_axis1.
  cbn [mk_matrix ncols nrows rows].
  destruct (lframes <? 1) eqn:E1; [ lia | reflexivity ].
Qed.

(** C6, as the code has it.  For a grid of [nframes >= 0] rows and
    [lframes >= 1] columns the transform succeeds exactly when the number
    of samples is [nframes * lframes], and then holds the transformed rows
    of the row-major reshape; any other number of samples is refused with
    the [ValueError] of the reshape. *)
Theorem get_cplx_spectrogram_grid {C : Type} `{Transform C} (x : list C)
  (nframes lframes : Z) :
  0 <= nframes -> 1 <= lframes ->
  (Z.of_nat (List.length x) = nframes * lframes ->
   get_cplx_spectrogram x nframes lframes
   = Ok {| nrows := nframes; ncols := lframes;
           rows := map fft (chunks (Z.to_nat nframes) (Z.to_nat lframes) x) |})
  /\ (Z.of_nat (List.length x) <> nframes * lframes ->
      get_cplx_spectrogram x nframes lframes = Err ValueError).
Proof.
  intros Hn Hl. split; intros Hs.
  - apply get_cplx_spectrogram_full; assumption.
  - unfold get_cplx_spectrogram, reshape.
    destruct (nframes <? 0) eqn:En; [ lia | ].
    destruct (lframes <? 0) eqn:El; [ lia | ]. cbn [andb].
    rewrite (proj2 (Z.eqb_neq _ _) Hs). reflexivity.
Qed.

Lemma get_cplx_spectrogram_grid_witness :
  @get_cplx_spectrogram Z {| fft := rev (A:=Z); ifft := rev (A:=Z) |}
    [1; 2; 3; 4; 5; 6] 2 3
  = Ok {| nrows := 2; ncols := 3; rows := [[3; 2; 1]; [6; 5; 4]] |}
  /\ @get_cplx_spectrogram Z {| fft := rev (A:=Z); ifft := rev (A:=Z) |}
       [1; 2; 3; 4; 5] 2 3
     = Err ValueError.
Proof.
  split.
  - apply (@get_cplx_spectrogram_grid Z
             {| fft := rev (A:=Z); ifft := rev (A:=Z) |}
             [1; 2; 3; 4; 5; 6] 2 3); [ lia | lia | reflexivity ].
  - apply (@get_cplx_spectrogram_grid Z
             {| fft := rev (A:=Z); ifft := rev (A:=Z) |}
             [1; 2; 3; 4; 5] 2 3); [ lia | lia | discriminate ].
Defined.

(** C6, as the spec states it, fails: with [nframes = -1] numpy infers the
    number of rows, and eight samples are accepted although
    [8 <> -1 * 4]. *)
Lemma get_cplx_spectrogram_inferred_rows :
  Z.of_nat (List.length [1; 2; 3; 4; 5; 6; 7; 8]) <> -1 * 4
  /\ forall (T : Transform Z),
       @get_cplx_spectrogram Z T [1; 2; 3; 4; 5; 6; 7; 8] (-1) 4
       = Ok {| nrows := 2; ncols := 4;
               rows := [fft [1; 2; 3; 4]; fft [5; 6; 7; 8]] |}.
Proof.
  split; [ discriminate | intros T; reflexivity ].
Qed.

Lemma concat_chunks {A : Type} (n l : nat) (x : list A) :
  List.length x = (n * l)%nat -> List.concat (chunks n l x) = x.
Proof.
  revert x. induction n as [| n IH]; intros x Hx; cbn [chunks List.concat].
  - destruct x; [ reflexivity | discriminate ].
  - rewrite IH by (rewrite length_skipn; lia). apply firstn_skipn.
Qed.

(** The pair in exact arithmetic: when the inverse transform undoes the
    transform on every row, the inverse spectrogram gives back the samples
    of a full grid.  The rounding of the floating-point transforms is not
    part of this statement. *)
Lemma spectrogram_round_trip_exact {C : Type} `{Transform C} (x : list C)
  (nframes lframes : Z) :
  (forall row : list C, ifft (fft row) = row) ->
  0 <= nframes -> 1 <= lframes ->
  Z.of_nat (List.length x) = nframes * lframes ->
  (zz <- get_cplx_spectrogram x nframes lframes ;;
   get_inv_cplx_spectrogram zz nframes lframes) = Ok x.
Proof.
  intros Hinv Hn Hl Hs.
  rewrite (get_cplx_spectrogram_full x nframes lframes Hn Hl Hs).
  cbn [bind]. unfold get_inv_cplx_spectrogram, along_axis1. cbn [ncols rows nrows].
  destruct (lframes <? 1) eqn:E1; [ lia | ]. cbn [bind rows].
  rewrite map_map, (map_ext _ (fun row => row) Hinv), map_id.
  rewrite concat_chunks by nia.
  unfold reshape. change (1 <? 0) with false. cbn [andb].
  destruct (nframes * lframes <? 0) eqn:E2; [ lia | ].
  rewrite (proj2 (Z.eqb_eq _ _)) by lia. cbn [bind mk_matrix rows].
  change (Z.to_nat 1) with 1%nat. cbn [chunks nth_error or_raise].
  rewrite firstn_all2 by lia. reflexivity.
Qed.

(** ** read_specan_xml *)

Lemma setitem_in_range {A : Type} (p : list A) (i : nat) (v : A) :
  (i < List.length p)%nat ->
  setitem p i v = Ok (firstn i p ++ v :: skipn (S i) p)%list.
Proof.
  revert i. induction p as [| a p IH]; intros i Hi; simpl in Hi; [ lia | ].
  destruct i as [| i]; [ reflexivity | ].
  simpl. rewrite IH by lia. reflexivity.
Qed.

Lemma setitem_out_of_range {A : Type} (p : list A) (i : nat) (v : A) :
  (List.length p <= i)%nat -> setitem p i v = Err IndexError.
Proof.
  revert i. induction p as [| a p IH]; intros i Hi; [ reflexivity | ].
  destruct i as [| i]; simpl in Hi; [ lia | ].
  simpl. rewrite IH by lia. reflexivity.
Qed.

Lemma fill_fits (es : list element) (vs : list pyfloat) :
  hold es vs ->
  forall (p : list pyfloat) (i : nat),
    (i + List.length vs <= List.length p)%nat ->
    for_each fill es (p, i)
    = Ok ((firstn i p ++ vs ++ skipn (i + List.length vs) p)%list,
          (i + List.length vs)%nat).
Proof.
  induction 1 as [| e v es vs He _ IH]; intros p i Hi.
  - cbn [for_each List.length app]. rewrite Nat.add_0_r, firstn_skipn.
    reflexivity.
  - cbn [List.length] in Hi. cbn [for_each fill]. rewrite He.
    cbn [bind]. rewrite setitem_in_range by lia. cbn [bind].
    assert (Hlen : List.length (firstn i p ++ v :: skipn (S i) p)%list
                   = List.length p).
    { rewrite length_app, length_firstn. cbn [List.length].
      rewrite length_skipn. lia. }
    rewrite IH by lia. f_equal. f_equal; [ | cbn [List.length]; lia ].
    assert (Hi' : List.length (firstn i p) = i)
      by (rewrite length_firstn; lia).
    rewrite firstn_app, Hi'.
    replace (S i - i)%nat with 1%nat by lia.
    rewrite firstn_all2 by lia. cbn [firstn].
    rewrite <- app_assoc. cbn [app]. do 3 f_equal.
    rewrite skipn_app, Hi'.
    rewrite skipn_all2 by lia. cbn [app List.length].
    replace (S i + List.length vs - i)%nat with (S (List.length vs)) by lia.
    rewrite skipn_cons, skipn_skipn. f_equal. lia.
Qed.

Lemma fill_overflows (es : list element) (vs : list pyfloat) :
  hold es vs ->
  forall (p : list pyfloat) (i : nat),
    (i <= List.length p)%nat ->
    (List.length p < i + List.length vs)%nat ->
    for_each fill es (p, i) = Err IndexError.
Proof.
  induction 1 as [| e v es vs He _ IH]; intros p i Hle Hi;
    cbn [List.length] in Hi.
  - lia.
  - cbn [for_each fill]. rewrite He. cbn [bind].
    destruct (Nat.eq_dec i (List.length p)) as [-> | Hne].
    + rewrite setitem_out_of_range by lia. reflexivity.
    + rewrite setitem_in_range by lia. cbn [bind].
      assert (Hlen : List.length (firstn i p ++ v :: skipn (S i) p)%list
                     = List.length p).
      { rewrite length_app, length_firstn. cbn [List.length].
        rewrite length_skipn. lia. }
      apply IH; lia.
Qed.

Lemma assign_each_hold (es : list element) (vs : list pyfloat) :
  hold es vs ->
  forall v0, exists v,
    for_each (fun _ e => v <- convert Num.float_of_string e ;; Ok (Some v))
      es v0 = Ok v.
Proof.
  induction 1 as [| e v es vs He _ IH]; intros v0; simpl.
  - eauto.
  - rewrite He. simpl. apply IH.
Qed.

Lemma assign_each_declared {A : Type} (f : element -> result A) (t : string)
  (root : element) (v : A) :
  declares f t root v -> assign_each f t root = Ok (Some v).
Proof.
  intros [e [Hi He]]. unfold assign_each. rewrite Hi. simpl.
  rewrite He. reflexivity.
Qed.

Lemma linspace_ok (a b : pyfloat) (num : Z) :
  0 <= num -> exists f, linspace a b num = Ok f.
Proof.
  intros Hn. unfold linspace.
  destruct (num <? 0) eqn:E; [ lia | eauto ].
Qed.

Lemma skipn_repeat_same {A : Type} (a : A) (n m : nat) :
  skipn n (repeat a m) = repeat a (m - n).
Proof.
  revert m. induction n as [| n IH]; intros m.
  - rewrite Nat.sub_0_r. reflexivity.
  - destruct m as [| m]; [ reflexivity | apply IH ].
Qed.

(** What [read_specan_xml] does with a document whose scalars are declared
    once and whose [y] elements hold [vs]: the power array is cut to the
    declared count beforehand, never grown afterwards. *)
Lemma read_specan_xml_declared (root : element) (count : Z)
  (start stop : pyfloat) (xunits yunits : option string) (vs : list pyfloat) :
  declares (convert Num.int_of_string) "Count" root count ->
  declares (convert Num.float_of_string) "XStart" root start ->
  declares (convert Num.float_of_string) "XStop" root stop ->
  declares (fun e => Ok (text_of e)) "XUnits" root xunits ->
  declares (fun e => Ok (text_of e)) "YUnits" root yunits ->
  hold (iter "y" root) vs ->
  0 <= count ->
  read_specan_xml root
  = (if (Z.of_nat (List.length vs) <=? count)
     then f <- linspace start stop count ;;
          Ok (f,
              (vs ++ repeat F.zero (Z.to_nat count - List.length vs))%list,
              (xunits, yunits))
     else Err IndexError).
Proof.
  intros Hc Hs He Hx Hy Hv H0. unfold read_specan_xml.
  rewrite (assign_each_declared _ _ _ _ Hc), (assign_each_declared _ _ _ _ Hs),
    (assign_each_declared _ _ _ _ He), (assign_each_declared _ _ _ _ Hx),
    (assign_each_declared _ _ _ _ Hy).
  simpl. destruct (assign_each_hold _ _ Hv None) as [pwr Hp].
  unfold assign_each. rewrite Hp. simpl. unfold zeros.
  destruct (count <? 0) eqn:E; [ lia | ]. simpl.
  destruct (Z.of_nat (List.length vs) <=? count) eqn:El.
  - rewrite (fill_fits _ _ Hv) by (rewrite repeat_length; simpl; lia).
    cbn [bind firstn app Nat.add]. rewrite skipn_repeat_same. reflexivity.
  - rewrite (fill_overflows _ _ Hv) by (try rewrite repeat_length; simpl; lia).
    reflexivity.
Qed.

Lemma set_last_length {A : Type} (y : list A) (v : A) :
  List.length (set_last y v) = List.length y.
Proof.
  induction y as [| a [| b y] IH]; try reflexivity.
  cbn [set_last List.length] in *. rewrite IH. reflexivity.
Qed.

Lemma range_length (n : Z) : List.length (range n) = Z.to_nat n.
Proof.
  unfold range. rewrite length_map, length_seq. reflexivity.
Qed.

Lemma linspace_length (a b : pyfloat) (num : Z) (f : list pyfloat) :
  linspace a b num = Ok f -> List.length f = Z.to_nat num.
Proof.
  unfold linspace. destruct (num <? 0); [ discriminate | ].
  intros E. injection E as <-.
  destruct (1 <? num); try rewrite set_last_length;
    rewrite length_map;
    repeat match goal with |- context [if ?c then _ else _] => destruct c end;
    rewrite length_map, length_map, range_length; reflexivity.
Qed.

(** C3.  On a document that declares [Count], [XStart], [XStop] and the
    units once each and holds [Count] elements tagged [y], the reader
    returns the axis [linspace(XStart, XStop, Count)], built from the bounds
    as they stand and not relative to a centre, together with the values of
    the [y] elements in document order. *)
Theorem read_specan_xml_trace (root : element) (count : Z)
  (start stop : pyfloat) (xunits yunits : option string) (vs : list pyfloat) :
  declares (convert Num.int_of_string) "Count" root count ->
  declares (convert Num.float_of_string) "XStart" root start ->
  declares (convert Num.float_of_string) "XStop" root stop ->
  declares (fun e => Ok (text_of e)) "XUnits" root xunits ->
  declares (fun e => Ok (text_of e)) "YUnits" root yunits ->
  hold (iter "y" root) vs ->
  Z.of_nat (List.length vs) = count ->
  exists f,
    linspace start stop count = Ok f
    /\ List.length f = List.length vs
    /\ read_specan_xml root = Ok (f, vs, (xunits, yunits)).
Proof.
  intros Hc Hs He Hx Hy Hv Hn.
  destruct (linspace_ok start stop count ltac:(lia)) as [f Hf].
  exists f. split; [ exact Hf | ]. split.
  - rewrite (linspace_length _ _ _ _ Hf). lia.
  - rewrite (read_specan_xml_declared root count start stop xunits yunits vs)
      by (assumption || lia).
    rewrite (proj2 (Z.leb_le _ _)) by lia. rewrite Hf. cbn [bind].
    replace (Z.to_nat count - List.length vs)%nat with 0%nat by lia.
    cbn [repeat]. rewrite app_nil_r. reflexivity.
Qed.

Ltac declared :=
  solve [ unfold declares; eexists; split; vm_compute; reflexivity ].

Ltac held :=
  unfold hold;
  match goal with
  | |- Forall2 ?P ?es ?vs =>
      let es' := eval vm_compute in es in
      let vs' := eval vm_compute in vs in
      change (Forall2 P es' vs')
  end;
  solve [ repeat (constructor; [ vm_compute; reflexivity | ]); constructor ].

(** The frequency axis of five points between 0 and 4. *)
Lemma linspace_0_4_5 :
  linspace (Finite 0) (Finite 4) 5
  = Ok [Finite 0; Finite 1; Finite 2; Finite 3; Finite 4].
Proof. reflexivity. Qed.

(** The document of the spec: [Count = 5], [XStart = 0], [XStop = 4] and
    five [y] elements give the axis [0, 1, 2, 3, 4] and the five values in
    document order. *)
Lemma read_specan_xml_trace_witness :
  read_specan_xml (trace_document "5" five_points)
  = Ok ([Finite 0; Finite 1; Finite 2; Finite 3; Finite 4],
        five_values, (Some "Hz", Some "dBm")).
Proof.
  assert (H : exists f,
             linspace (Finite 0) (Finite 4) 5 = Ok f
             /\ List.length f = List.length five_values
             /\ read_specan_xml (trace_document "5" five_points)
                = Ok (f, five_values, (Some "Hz", Some "dBm"))).
  { apply (read_specan_xml_trace (trace_document "5" five_points) 5
             (Finite 0) (Finite 4) (Some "Hz") (Some "dBm") five_values);
      first [ declared | held | reflexivity ]. }
  destruct H as [f [Hf [_ Hr]]].
  rewrite linspace_0_4_5 in Hf. injection Hf as <-. exact Hr.
Defined.

(** C7, as the spec states it, fails: a document that declares six points
    and holds five is read without any error, and the sixth power value is
    the zero the array was created with. *)
Lemma read_specan_xml_count_6_of_5 :
  read_specan_xml (trace_document "6" five_points)
  = Ok ([Finite 0; Finite (4 # 5); Finite (8 # 5); Finite (12 # 5);
         Finite (16 # 5); Finite 4],
        (five_values ++ [Finite 0])%list,
        (Some "Hz", Some "dBm")).
Proof. reflexivity. Qed.

(** C7, as the code has it.  The reader does not compare [Count] with the
    number of [y] elements.  With [Count >= 0]: when the document holds at
    most [Count] of them it returns an array of [Count] values, the missing
    ones being zero; when it holds more, the write after the last cell
    raises [IndexError]. *)
Theorem read_specan_xml_count_mismatch (root : element) (count : Z)
  (start stop : pyfloat) (xunits yunits : option string) (vs : list pyfloat) :
  declares (convert Num.int_of_string) "Count" root count ->
  declares (convert Num.float_of_string) "XStart" root start ->
  declares (convert Num.float_of_string) "XStop" root stop ->
  declares (fun e => Ok (text_of e)) "XUnits" root xunits ->
  declares (fun e => Ok (text_of e)) "YUnits" root yunits ->
  hold (iter "y" root) vs ->
  0 <= count ->
  (Z.of_nat (List.length vs) <= count ->
   exists f,
     linspace start stop count = Ok f
     /\ read_specan_xml root
        = Ok (f,
              (vs ++ repeat F.zero (Z.to_nat count - List.length vs))%list,
              (xunits, yunits)))
  /\ (count < Z.of_nat (List.length vs) ->
      read_specan_xml root = Err IndexError).
Proof.
  intros Hc Hs He Hx Hy Hv H0.
  rewrite (read_specan_xml_declared root count start stop xunits yunits vs)
    by assumption.
  split; intros Hn.
  - destruct (linspace_ok start stop count H0) as [f Hf].
    exists f. split; [ exact Hf | ].
    rewrite (proj2 (Z.leb_le _ _)) by lia. rewrite Hf. reflexivity.
  - rewrite (proj2 (Z.leb_gt _ _)) by lia. reflexivity.
Qed.

(** Five points under a declared count of six, and of four. *)
Lemma read_specan_xml_count_mismatch_witness :
  (exists f,
      linspace (Finite 0) (Finite 4) 6 = Ok f
      /\ read_specan_xml (trace_document "6" five_points)
         = Ok (f, (five_values ++ repeat F.zero (Z.to_nat 6 - 5))%list,
               (Some "Hz", Some "dBm")))
  /\ read_specan_xml (trace_document "4" five_points) = Err IndexError.
Proof.
  split.
  - apply (read_specan_xml_count_mismatch (trace_document "6" five_points) 6
             (Finite 0) (Finite 4) (Some "Hz") (Some "dBm") five_values);
      first [ lia | declared | held | simpl; lia ].
  - apply (read_specan_xml_count_mismatch (trace_document "4" five_points) 4
             (Finite 0) (Finite 4) (Some "Hz") (Some "dBm") five_values);
      first [ lia | declared | held | simpl; lia ].
Defined.

(** ** read_result_csv *)

Lemma key_line_well_formed (key : string) (l : string) :
  In key csv_keys ->
  well_formed_line l = true ->
  key_line key (Str.split "," l) = metadata_line key l
  /\ (metadata_line key l = true ->
      exists v, line_value key l = Some v
                /\ second_float (Str.split "," l) = Ok v).
Proof.
  intros Hk Hw. unfold well_formed_line in Hw.
  rewrite forallb_forall in Hw. specialize (Hw key Hk).
  unfold line_value, metadata_line, key_line, second_float in *.
  destruct (Str.split "," l) as [| f0 [| f1 [| f2 [| f3 fs]]]];
    cbn [List.length Nat.eqb hd nth nth_error andb existsb or_raise bind] in *;
    try solve [ rewrite ?andb_false_r; split; [ reflexivity | discriminate ] ].
  rewrite ?andb_true_r, ?orb_false_r in *.
  rewrite (String.eqb_sym f0 key) in *.
  destruct (String.eqb key f0) eqn:E0; cbn [orb implb andb] in *.
  - split; [ reflexivity | intros _ ].
    destruct (Num.float_of_string f1) as [v |]; [ | discriminate ].
    exists v. split; reflexivity.
  - destruct (String.eqb key f1 || String.eqb key f2) eqn:E;
      [ discriminate | ].
    split; [ reflexivity | discriminate ].
Qed.

(** One step of the scan on a well-formed line, by the metadata lines. *)
Lemma csv_line_well_formed (st : csv_locals) (l : string) :
  well_formed_line l = true ->
  csv_line st l
  = Ok {| center := match line_value "Frequency" l with
                    | Some v => Some v
                    | None => center st
                    end;
          start := match line_value "XStart" l with
                   | Some v => Some v
                   | None => start st
                   end;
          stop := match line_value "XStop" l with
                  | Some v => Some v
                  | None => stop st
                  end |}.
Proof.
  intros Hw. unfold csv_line.
  destruct (key_line_well_formed "Frequency" l) as [-> Hf];
    [ simpl; tauto | exact Hw | ].
  destruct (key_line_well_formed "XStart" l) as [-> Hs];
    [ simpl; tauto | exact Hw | ].
  destruct (key_line_well_formed "XStop" l) as [-> He];
    [ simpl; tauto | exact Hw | ].
  assert (Hnone : forall key, metadata_line key l = false ->
                              line_value key l = None)
    by (intros key E; unfold line_value; rewrite E; reflexivity).
  remember (second_float (Str.split "," l)) as r eqn:Hr. clear Hr.
  destruct (metadata_line "Frequency" l) eqn:Ef;
    [ destruct (Hf eq_refl) as [vf [Hlf Hrf]] | pose proof (Hnone _ Ef) as Hlf ];
    clear Hf;
    (destruct (metadata_line "XStart" l) eqn:Es;
     [ destruct (Hs eq_refl) as [vs [Hls Hrs]]
     | pose proof (Hnone _ Es) as Hls ]);
    clear Hs;
    (destruct (metadata_line "XStop" l) eqn:Ee;
     [ destruct (He eq_refl) as [ve [Hle Hre]]
     | pose proof (Hnone _ Ee) as Hle ]);
    clear He; rewrite Hlf, Hls, Hle; subst;
    repeat match goal with
           | H : Ok _ = Ok _ |- _ => injection H as <-
           end;
    destruct st; reflexivity.
Qed.

(** The scan of a well-formed file leaves in each local the value of the
    last metadata line of its key. *)
Lemma scan_well_formed (cont : list string) :
  well_formed cont = true ->
  forall st : csv_locals,
    for_each csv_line cont st
    = Ok {| center := match metadata_value "Frequency" cont with
                      | Some v => Some v
                      | None => center st
                      end;
            start := match metadata_value "XStart" cont with
                     | Some v => Some v
                     | None => start st
                     end;
            stop := match metadata_value "XStop" cont with
                    | Some v => Some v
                    | None => stop st
                    end |}.
Proof.
  induction cont as [| l cont IH]; intros Hw st.
  - destruct st; reflexivity.
  - cbn [well_formed forallb] in Hw. apply andb_prop in Hw.
    destruct Hw as [Hl Hc]. cbn [for_each].
    rewrite (csv_line_well_formed st l Hl). cbn [bind].
    rewrite (IH Hc). cbn [metadata_value center start stop].
    destruct (metadata_value "Frequency" cont),
      (metadata_value "XStart" cont), (metadata_value "XStop" cont);
      reflexivity.
Qed.

(** C2.  On a well-formed result file the numeric data are read from the
    lines after the first 63; the centre, start and stop values are those
    of the metadata lines (three fields, the key as first token, the value
    as second field); and the returned frequency axis is
    [linspace(start - center, stop - center, len(data))]. *)
Theorem read_result_csv_axis (cont : list string) (c s e : pyfloat)
  (p : ndarray) (n : Z) :
  well_formed cont = true ->
  metadata_value "Frequency" cont = Some c ->
  metadata_value "XStart" cont = Some s ->
  metadata_value "XStop" cont = Some e ->
  genfromtxt (skipn 63 cont) 0 = Ok p ->
  len p = Ok n ->
  exists f,
    linspace (F.sub s c) (F.sub e c) n = Ok f
    /\ read_result_csv cont = Ok (f, p).
Proof.
  intros Hw Hc Hs He Hp Hn.
  assert (H0 : 0 <= n) by (destruct p; simpl in Hn; inversion Hn; lia).
  destruct (linspace_ok (F.sub s c) (F.sub e c) n H0) as [f Hf].
  exists f. split; [ exact Hf | ].
  unfold read_result_csv.
  change (genfromtxt cont 63) with (genfromtxt (skipn 63 cont) 0).
  rewrite Hp. cbn [bind]. rewrite (scan_well_formed cont Hw).
  cbn [bind center start stop]. rewrite Hc, Hs, He. cbn [or_raise bind].
  rewrite Hn. cbn [bind]. rewrite Hf. reflexivity.
Qed.

(** The sample file: five power values around 2.45 GHz, the axis running
    from -1 kHz to +1 kHz relative to the centre. *)
Lemma read_result_csv_axis_witness :
  exists f,
    linspace (F.sub (Finite 2449999000) (Finite 2450000000))
      (F.sub (Finite 2450001000) (Finite 2450000000)) 5 = Ok f
    /\ read_result_csv result_file
       = Ok (f, Vec [Finite (-181 # 2); Finite (-365 # 4); Finite (-30);
                     Finite (-92); Finite (-359 # 4)]).
Proof.
  apply (read_result_csv_axis result_file (Finite 2450000000)
           (Finite 2449999000) (Finite 2450001000)); reflexivity.
Defined.

(** The axis of the sample file. *)
Lemma linspace_sample_axis :
  linspace (F.sub (Finite 2449999000) (Finite 2450000000))
    (F.sub (Finite 2450001000) (Finite 2450000000)) 5
  = Ok [Finite (-1000); Finite (-500); Finite 0; Finite 500; Finite 1000].
Proof. reflexivity. Qed.

(** ** make_test_signal *)

Lemma array_add_map {A : Type} (g h : A -> R) (t : list A) :
  array_add (map g t) (map h t) = map (fun tk => (g tk + h tk)%R) t.
Proof.
  induction t as [| tk t IH]; [ reflexivity | ].
  cbn [map array_add]. rewrite IH. reflexivity.
Qed.

Lemma repeat_as_map {A B : Type} (b : B) (t : list A) :
  repeat b (List.length t) = map (fun _ => b) t.
Proof.
  induction t as [| tk t IH]; [ reflexivity | ].
  cbn [List.length repeat map]. rewrite IH. reflexivity.
Qed.

(** The loop over the harmonics, sample by sample. *)
Lemma harmonics_pointwise (f : Q) (t : list Q) (js : list Z) :
  forall g : Q -> R,
    fold_left (fun x i => array_add x (harmonic i f t)) js (map g t)
    = map (fun tk =>
             fold_left
               (fun acc i => (acc + sin (2 * PI * IZR i * Q2R f * Q2R tk))%R)
               js (g tk)) t.
Proof.
  induction js as [| j js IH]; intros g; [ reflexivity | ].
  cbn [fold_left]. unfold harmonic at 2. rewrite array_add_map.
  rewrite (IH (fun tk => (g tk + sin (2 * PI * IZR j * Q2R f * Q2R tk))%R)).
  reflexivity.
Qed.

Lemma fold_left_sum {A : Type} (s : A -> R) (l : list A) (a : R) :
  fold_left (fun acc i => (acc + s i)%R) l a
  = (a + fold_right Rplus 0%R (map s l))%R.
Proof.
  revert a. induction l as [| i l IH]; intros a; cbn [fold_left map fold_right].
  - lra.
  - rewrite IH. lra.
Qed.

(** The term of index 0 vanishes: what the loop adds up is the sum of the
    sinusoids of index 1 to [nharm + 1]. *)
Lemma harmonics_from_one (f : Q) (nharm : Z) (tk : Q) :
  fold_left (fun acc i => (acc + sin (2 * PI * IZR i * Q2R f * Q2R tk))%R)
    (range (nharm + 2)) 0%R
  = harmonic_sum f nharm tk.
Proof.
  unfold harmonic_sum, range. rewrite fold_left_sum.
  destruct (Z_lt_le_dec (nharm + 1) 0) as [Hneg | Hpos].
  - replace (Z.to_nat (nharm + 2)) with 0%nat by lia.
    replace (Z.to_nat (nharm + 1)) with 0%nat by lia.
    cbn [seq map fold_right]. lra.
  - replace (Z.to_nat (nharm + 2)) with (S (Z.to_nat (nharm + 1))) by lia.
    cbn [seq map fold_right]. change (Z.of_nat 0) with 0.
    replace (2 * PI * 0 * Q2R f * Q2R tk)%R with 0%R by lra.
    rewrite sin_0. lra.
Qed.

Lemma map_range_nth {A : Type} (g : Z -> A) (n : Z) (k : nat) (d : A) :
  (k < Z.to_nat n)%nat -> nth k (map g (range n)) d = g (Z.of_nat k).
Proof.
  intros Hk. unfold range.
  rewrite (nth_indep _ d (g (Z.of_nat 0)))
    by (rewrite !length_map, length_seq; exact Hk).
  rewrite map_nth. f_equal.
  rewrite map_nth, seq_nth by lia. reflexivity.
Qed.

(** What [make_test_signal] returns without noise, for any sampling rate
    other than zero. *)
Lemma make_test_signal_closed_form (normal : nat -> list R) (f fs length : Q)
  (nharm : Z) :
  Qeq_bool fs 0 = false ->
  make_test_signal normal f fs length nharm false
  = Ok (arange 0 length (1 / fs),
        map (harmonic_sum f nharm) (arange 0 length (1 / fs))).
Proof.
  intros Hfs. unfold make_test_signal. rewrite Hfs.
  rewrite repeat_as_map, harmonics_pointwise.
  do 2 f_equal. apply map_ext. intros tk. apply harmonics_from_one.
Qed.

(** The time axis of one second sampled at 1 kHz. *)
Lemma arange_one_second :
  List.length (arange 0 1 (1 / 1000)) = 1000%nat
  /\ forall k : nat,
       (k < 1000)%nat ->
       Q2R (nth k (arange 0 1 (1 / 1000)) 0%Q) = (INR k / 1000)%R.
Proof.
  unfold arange.
  change (Qceiling ((1 - 0) / (1 / 1000))) with 1000.
  split; [ rewrite length_map, range_length; reflexivity | ].
  intros k Hk.
  rewrite map_range_nth by exact Hk.
  rewrite (Qeq_eqR _ _ (Qred_correct _)).
  rewrite Q2R_plus, Q2R_mult, INR_IZR_INZ.
  unfold Q2R, inject_Z. cbn [Qnum Qden Qdiv Qmult Qinv Qplus].
  simpl. lra.
Qed.

(** The samples of [make_test_signal(10, 1000, 1, 0)]: a single sinusoid
    at 10 Hz. *)
Lemma one_second_sample (k : nat) :
  (k < 1000)%nat ->
  nth k (map (harmonic_sum 10 0) (arange 0 1 (1 / 1000))) 0%R
  = sin (2 * PI * 10 * (INR k / 1000)).
Proof.
  intros Hk. destruct arange_one_second as [Hlen Hnth].
  rewrite (nth_indep _ 0%R (harmonic_sum 10 0 0%Q))
    by (rewrite length_map, Hlen; exact Hk).
  rewrite map_nth. unfold harmonic_sum.
  change (Z.to_nat (0 + 1)) with 1%nat. cbn [seq map fold_right].
  rewrite (Hnth k Hk). change (Z.of_nat 1) with 1.
  replace (Q2R 10) with 10%R by (unfold Q2R; simpl; lra).
  rewrite Rplus_0_r. f_equal. lra.
Qed.

(** C5, as the code has it.  Without noise the signal is, sample by
    sample, the sum of the [nharm + 2] terms [sin(2 pi i f t)] for
    [i = 0 .. nharm + 1]; the term of index 0 is zero, which leaves the
    sinusoids at [f], ..., [(nharm + 1) f].  For [f = 10], [fs = 1000],
    [length = 1] and [nharm = 0] there are 1000 samples at the times
    [k / 1000], and each one is [sin(2 pi 10 t)]. *)
Theorem make_test_signal_harmonics (normal : nat -> list R) :
  (forall (f fs length : Q) (nharm : Z),
      Qeq_bool fs 0 = false ->
      make_test_signal normal f fs length nharm false
      = Ok (arange 0 length (1 / fs),
            map (harmonic_sum f nharm) (arange 0 length (1 / fs))))
  /\ (exists (t : list Q) (x : list R),
         make_test_signal normal 10 1000 1 0 false = Ok (t, x)
         /\ List.length t = 1000%nat
         /\ List.length x = 1000%nat
         /\ forall k : nat,
              (k < 1000)%nat ->
              Q2R (nth k t 0%Q) = (INR k / 1000)%R
              /\ nth k x 0%R = sin (2 * PI * 10 * (INR k / 1000))).
Proof.
  split.
  - intros f fs length nharm Hfs. apply make_test_signal_closed_form, Hfs.
  - exists (arange 0 1 (1 / 1000)).
    exists (map (harmonic_sum 10 0) (arange 0 1 (1 / 1000))).
    destruct arange_one_second as [Hlen Hnth].
    split; [ apply make_test_signal_closed_form; reflexivity | ].
    split; [ exact Hlen | ].
    split; [ rewrite length_map; exact Hlen | ].
    intros k Hk. split; [ apply Hnth, Hk | apply one_second_sample, Hk ].
Qed.

(** A concert pitch with three overtones, two seconds at 48 kHz. *)
Lemma make_test_signal_harmonics_witness :
  make_test_signal (fun n => repeat 0%R n) 440 48000 2 3 false
  = Ok (arange 0 2 (1 / 48000),
        map (harmonic_sum 440 3) (arange 0 2 (1 / 48000))).
Proof.
  apply (proj1 (make_test_signal_harmonics (fun n => repeat 0%R n))).
  reflexivity.
Defined.

(** C5, as the spec states it, fails: the second sample of
    [make_test_signal(10, 1000, 1, 0)] is not the sum of the sinusoids at
    10 Hz and 20 Hz, because the loop starts at the index 0 and stops at
    the index 1. *)
Lemma make_test_signal_not_10_and_20_Hz :
  exists (t : list Q) (x : list R),
    make_test_signal (fun n => repeat 0%R n) 10 1000 1 0 false = Ok (t, x)
    /\ nth 1 x 0%R
       <> (sin (2 * PI * 10 * (1 / 1000)) + sin (2 * PI * 20 * (1 / 1000)))%R.
Proof.
  exists (arange 0 1 (1 / 1000)).
  exists (map (harmonic_sum 10 0) (arange 0 1 (1 / 1000))).
  split; [ apply make_test_signal_closed_form; reflexivity | ].
  rewrite (one_second_sample 1) by lia. change (INR 1) with 1%R.
  assert (Hpos : (0 < sin (2 * PI * 20 * (1 / 1000)))%R).
  { pose proof PI_RGT_0 as Hpi. apply sin_gt_0; lra. }
  lra.
Qed.

(** ** get_eng_notation *)

Lemma fold_left_max_spec (l : list Z) (a : Z) :
  (fold_left Z.max l a = a \/ In (fold_left Z.max l a) l)
  /\ a <= fold_left Z.max l a
  /\ forall k, In k l -> k <= fold_left Z.max l a.
Proof.
  revert a. induction l as [| b l IH]; intros a; cbn [fold_left In].
  - split; [ left; reflexivity | split; [ lia | intros k [] ] ].
  - destruct (IH (Z.max a b)) as [Hin [Hle Hall]].
    split; [ | split ].
    + destruct Hin as [E | Hin]; [ | right; right; exact Hin ].
      rewrite E. destruct (Z.max_spec a b) as [[_ ->] | [_ ->]]; auto.
    + lia.
    + intros k [<- | Hk]; [ lia | apply Hall, Hk ].
Qed.

(** [max] of the keys that pass a test, when some key does: a key that
    passes, and the largest such. *)
Lemma py_max_filter (P : Z -> bool) (l : list Z) (k0 : Z) :
  In k0 l -> P k0 = true ->
  exists num,
    py_max (filter P l) = Some num
    /\ In num l /\ P num = true
    /\ forall k, In k l -> P k = true -> k <= num.
Proof.
  intros Hin HP.
  assert (Hf : In k0 (filter P l)) by (apply filter_In; auto).
  destruct (filter P l) as [| a fl] eqn:E; [ destruct Hf | ].
  destruct (fold_left_max_spec fl a) as [Hm [Hle Hall]].
  exists (fold_left Z.max fl a). split; [ reflexivity | ].
  assert (Hmem : In (fold_left Z.max fl a) (filter P l)).
  { rewrite E. destruct Hm as [-> | Hm]; [ left; reflexivity | right; exact Hm ]. }
  apply filter_In in Hmem. destruct Hmem as [H1 H2].
  split; [ exact H1 | split; [ exact H2 | ] ].
  intros k Hk HPk.
  assert (Hk' : In k (a :: fl)) by (rewrite <- E; apply filter_In; auto).
  destruct Hk' as [<- | Hk']; [ exact Hle | apply Hall, Hk' ].
Qed.

(** The steps of [get_eng_notation(1130, 'Hz', 2)]: the quotient
    [1130 / 10 ** 3] is the double next to [1.13], its product with
    [10 ** 2] is the double [112.99999999999999], just below [113], and
    [int] cuts it to [112]. *)
Lemma get_eng_notation_1130_steps :
  Py.truediv (Int 1130) (Int (10 ^ 3))
  = Ok (Finite (1272266894732165 # 1125899906842624))
  /\ Py.mul (Finite (1272266894732165 # 1125899906842624)) (Int (10 ^ 2))
     = Ok (Finite (7951668092076031 # 70368744177664))
  /\ Py.str (Finite (7951668092076031 # 70368744177664))
     = "112.99999999999999"
  /\ Py.int (Finite (7951668092076031 # 70368744177664)) = Ok 112
  /\ Py.truediv (Int 112) (Int (10 ^ 2))
     = Ok (Finite (1261007895663739 # 1125899906842624))
  /\ Py.str (Finite (1261007895663739 # 1125899906842624)) = "1.12".
Proof. vm_compute. repeat split; reflexivity. Qed.

(** C8.  Both examples of the spec are printed as it says, but the
    mantissa is not the value cut to [decimal_place] decimals: it is cut
    from a product of rounded floats.  [1130 Hz] is [1.13 kHz], which cut
    to two decimals is [1.13] (the integer part of [1.13 * 100] is
    [113]), yet the function prints ["1.12kHz"]; and [10^24 - 1], whose
    mantissa cut to two decimals is [999.99] with the prefix [Z], is
    printed as ["1000.0ZHz"]. *)
Theorem get_eng_notation_float_truncation :
  get_eng_notation (Int 1500) "Hz" 2 = Ok "1.5kHz"
  /\ get_eng_notation (Int 0) "Hz" 2 = Ok "0Hz"
  /\ get_eng_notation (Int 1130) "Hz" 2 = Ok "1.12kHz"
  /\ Num.trunc ((1130 # 1) / pow10 3 * pow10 2) = 113
  /\ get_eng_notation (Int (10 ^ 24 - 1)) "Hz" 2 = Ok "1000.0ZHz"
  /\ Num.trunc (inject_Z (10 ^ 24 - 1) / pow10 21 * pow10 2) = 99999.
Proof. vm_compute. repeat split; reflexivity. Qed.

(** ** parse_filename *)

(** What sets the characters of a plain numeral apart. *)
Lemma plain_char_facts (c : ascii) :
  plain_char c = true ->
  Num.is_space c = false
  /\ Str.lower_ascii c = c
  /\ (Str.is_digit c || Ascii.eqb c "_" = false -> c = "."%char)
  /\ ~ In c ["-"; "+"; "e"; "E"; "_"; "M"; "u"; "i"; "n"]%char.
Proof.
  destruct c as [[] [] [] [] [] [] [] []]; intros H; try discriminate H;
    (split; [ reflexivity
            | split; [ reflexivity
                     | split; [ intros E; first [ discriminate E | reflexivity ]
                              | cbn [In]; intuition discriminate ] ] ]).
Qed.

Lemma list_ascii_of_string_app (a b : string) :
  list_ascii_of_string (a ++ b)
  = (list_ascii_of_string a ++ list_ascii_of_string b)%list.
Proof.
  induction a as [| c a IH]; [ reflexivity | ].
  cbn [append list_ascii_of_string app]. rewrite IH. reflexivity.
Qed.

Lemma split_field (sep : ascii) (a s : string) :
  forallb (fun c => negb (Ascii.eqb c sep)) (list_ascii_of_string a) = true ->
  Str.split sep (a ++ String sep s) = a :: Str.split sep s.
Proof.
  induction a as [| c a IH]; cbn [append list_ascii_of_string forallb Str.split].
  - intros _. rewrite Ascii.eqb_refl. reflexivity.
  - intros H. apply andb_prop in H. destruct H as [Hc Ha].
    apply negb_true_iff in Hc. rewrite Hc, (IH Ha). reflexivity.
Qed.

(** A unit that follows a plain numeral is replaced where it stands. *)
Lemma replace_unit (a : ascii) (old' new v : string) :
  plain_char a = false ->
  Str.replace (String a old') new (String a old') = new ->
  plain_numeral v = true ->
  Str.replace (String a old') new (v ++ String a old') = v ++ new.
Proof.
  intros Ha Hold. unfold plain_numeral, Str.replace in *.
  induction v as [| c v IH]; cbn [append list_ascii_of_string forallb].
  - intros _. exact Hold.
  - intros H. apply andb_prop in H. destruct H as [Hc Hv].
    cbn [Str.replace_from prefix].
    destruct (ascii_dec a c) as [<- | Hne]; [ congruence | ].
    rewrite (IH Hv). reflexivity.
Qed.

Lemma lstrip_noop (p : ascii -> bool) (x : list ascii) :
  (forall c, In c x -> p c = false) -> Str.lstrip_by p x = x.
Proof.
  destruct x as [| c x]; [ reflexivity | ].
  intros H. cbn [Str.lstrip_by]. rewrite (H c) by (left; reflexivity).
  reflexivity.
Qed.

Lemma strip_noop (p : ascii -> bool) (x : list ascii) :
  (forall c, In c x -> p c = false) -> Str.strip_by p x = x.
Proof.
  intros H. unfold Str.strip_by. rewrite (lstrip_noop p x H).
  rewrite lstrip_noop by (intros c Hc; apply H, in_rev, Hc).
  apply rev_involutive.
Qed.

Lemma neq_eqb_false (c d : ascii) : c <> d -> Ascii.eqb c d = false.
Proof. intros H. apply Ascii.eqb_neq, H. Qed.

(** A digit run does not see what follows a character that ends it. *)
Lemma span_digits_app (l r : list ascii) :
  match r with
  | [] => True
  | c :: _ => Str.is_digit c || Ascii.eqb c "_" = false
  end ->
  Num.span_digits (l ++ r)
  = (fst (Num.span_digits l), (snd (Num.span_digits l) ++ r)%list).
Proof.
  intros Hr. induction l as [| c l IH]; cbn [app Num.span_digits].
  - destruct r as [| c r]; [ reflexivity | ].
    cbn [Num.span_digits]. rewrite Hr. reflexivity.
  - destruct (Str.is_digit c || Ascii.eqb c "_"); [ | reflexivity ].
    rewrite IH. destruct (Num.span_digits l). reflexivity.
Qed.

Lemma digit_run_app (l r : list ascii) :
  match r with
  | [] => True
  | c :: _ => Str.is_digit c || Ascii.eqb c "_" = false
  end ->
  Num.digit_run (l ++ r)
  = match Num.digit_run l with
    | Some (d, rest) => Some (d, (rest ++ r)%list)
    | None => None
    end.
Proof.
  intros Hr. unfold Num.digit_run. rewrite (span_digits_app l r Hr).
  destruct (Num.span_digits l) as [d rest]. cbn [fst snd].
  destruct d; [ reflexivity | ].
  destruct (Num.grouped false (a :: d)); reflexivity.
Qed.

Lemma span_digits_rest (l : list ascii) :
  forallb plain_char l = true -> at_point (snd (Num.span_digits l)).
Proof.
  induction l as [| c l IH]; cbn [forallb Num.span_digits].
  - intros _. split; [ reflexivity | left; reflexivity ].
  - intros H. apply andb_prop in H. destruct H as [Hc Hl].
    destruct (Str.is_digit c || Ascii.eqb c "_") eqn:E.
    + specialize (IH Hl). destruct (Num.span_digits l). exact IH.
    + cbn [snd]. split; [ cbn [forallb]; rewrite Hc, Hl; reflexivity | ].
      right. exists l. f_equal.
      apply (proj1 (proj2 (proj2 (plain_char_facts c Hc)))), E.
Qed.

Lemma digit_run_rest (l : list ascii) (d : list Z) (r : list ascii) :
  forallb plain_char l = true -> Num.digit_run l = Some (d, r) -> at_point r.
Proof.
  intros Hl. pose proof (span_digits_rest l Hl) as Hr.
  unfold Num.digit_run. destruct (Num.span_digits l) as [ds rest].
  cbn [snd] in Hr. destruct ds.
  - intros E. injection E as _ <-. exact Hr.
  - destruct (Num.grouped false (a :: ds)); [ | discriminate ].
    intros E. injection E as _ <-. exact Hr.
Qed.

Lemma exponent_of_at_point (x : list ascii) (e : Z) :
  at_point x -> Num.exponent_of x = Some e -> x = [] /\ e = 0.
Proof.
  intros [_ [-> | [x' ->]]]; cbn.
  - intros E. injection E as <-. split; reflexivity.
  - discriminate.
Qed.

(** A plain numeral followed by an exponent: the same digits, scaled. *)
Lemma decimal_of_scaled (l : list ascii) (q : Q) (r : list ascii) (E : Z) :
  forallb plain_char l = true ->
  Num.decimal_of l = Some q ->
  Num.exponent_of ("e"%char :: r) = Some E ->
  exists (m k : Z),
    q = (inject_Z m * pow10 (0 - k))%Q
    /\ Num.decimal_of (l ++ "e"%char :: r)
       = Some (inject_Z m * pow10 (E - k))%Q.
Proof.
  intros Hl Hq HE. unfold Num.decimal_of in *.
  rewrite (digit_run_app l) by reflexivity.
  destruct (Num.digit_run l) as [[ip r1] |] eqn:E1; [ | discriminate ].
  destruct (digit_run_rest l ip r1 Hl E1) as [Hr1 [-> | [r1' ->]]].
  - cbn [app]. change (Ascii.eqb "e" ".") with false. cbv iota.
    destruct (ip ++ [])%list as [| d ds] eqn:Eip; [ discriminate | ].
    cbn [Num.exponent_of List.length Z.of_nat] in Hq. injection Hq as <-.
    exists (Num.value_of (d :: ds)), 0. split; [ reflexivity | ].
    rewrite HE. reflexivity.
  - cbn [app]. rewrite Ascii.eqb_refl in *.
    cbn [forallb] in Hr1. apply andb_prop in Hr1. destruct Hr1 as [_ Hr1].
    rewrite (digit_run_app r1') by reflexivity.
    destruct (Num.digit_run r1') as [[fp r2] |] eqn:E2; [ | discriminate ].
    pose proof (digit_run_rest r1' fp r2 Hr1 E2) as Hr2.
    destruct (ip ++ fp)%list as [| d ds] eqn:Eip; [ discriminate | ].
    destruct (Num.exponent_of r2) as [e |] eqn:Ee; [ | discriminate ].
    destruct (exponent_of_at_point r2 e Hr2 Ee) as [-> ->].
    injection Hq as <-.
    exists (Num.value_of (d :: ds)), (Z.of_nat (List.length fp)).
    split; [ reflexivity | ].
    cbn [app]. rewrite HE. reflexivity.
Qed.

(** [float] of a string that starts like a plain numeral and holds no
    white space is the reading of its decimal literal. *)
Lemma float_of_plain_head (c : ascii) (x : list ascii) :
  plain_char c = true ->
  (forall d, In d (c :: x) -> Num.is_space d = false) ->
  Num.float_of_string (string_of_list_ascii (c :: x))
  = match Num.decimal_of (c :: x) with
    | Some q => Some (Num.literal q)
    | None => None
    end.
Proof.
  intros Hc Hsp. unfold Num.float_of_string.
  rewrite list_ascii_of_string_of_list_ascii, (strip_noop _ _ Hsp).
  destruct (plain_char_facts c Hc) as [_ [Hlow [_ Hnot]]].
  assert (Hne : forall d, In d ["-"; "+"; "e"; "E"; "_"; "M"; "u"; "i"; "n"]%char ->
                          Ascii.eqb c d = false).
  { intros d Hd. apply neq_eqb_false. intros ->. exact (Hnot Hd). }
  unfold Num.sign_of.
  rewrite (Hne "-"%char), (Hne "+"%char) by (cbn [In]; tauto).
  cbn [string_of_list_ascii Str.lower String.eqb]. rewrite Hlow.
  rewrite (Hne "i"%char), (Hne "n"%char) by (cbn [In]; tauto).
  cbn [andb orb]. reflexivity.
Qed.

Lemma fin_eq (x y : Q) : (x == y)%Q -> fin x = fin y.
Proof. intros H. unfold fin. f_equal. apply Qred_complete, H. Qed.

(** What a literal reads as depends on its value only. *)
Lemma literal_eq (x y : Q) : (x == y)%Q -> Num.literal x = Num.literal y.
Proof.
  intros H. unfold Num.literal. rewrite (fin_eq x y H).
  rewrite (Qleb_comp _ _ (Qeq_refl Num.overflow) _ _ (Qabs_wd _ _ H)).
  rewrite (Qleb_comp _ _ (Qeq_refl 0) _ _ H). reflexivity.
Qed.

Lemma literal_scaled (m k E : Z) :
  Num.literal (inject_Z m * pow10 (E - k))
  = Num.literal (Qred (inject_Z m * pow10 (0 - k)) * pow10 E).
Proof.
  apply literal_eq.
  rewrite Qred_correct. unfold pow10.
  replace (E - k) with ((0 - k) + E) by lia.
  rewrite Qpower_plus by discriminate. ring.
Qed.

(** [float] of a plain numeral followed by an exponent. *)
Lemma float_of_scaled (v r : string) (E : Z) (q : Q) :
  plain_numeral v = true ->
  Num.exponent_of ("e"%char :: list_ascii_of_string r) = Some E ->
  (forall d, In d (list_ascii_of_string r) -> Num.is_space d = false) ->
  Num.float_of_string v = Some (Finite q) ->
  Num.float_of_string (v ++ String "e" r)
  = Some (Num.literal (q * pow10 E)).
Proof.
  intros Hv HE Hr Hq. unfold plain_numeral in Hv.
  rewrite <- (string_of_list_ascii_of_string v) in Hq.
  rewrite <- (string_of_list_ascii_of_string (v ++ String "e" r)).
  rewrite list_ascii_of_string_app. cbn [list_ascii_of_string].
  destruct (list_ascii_of_string v) as [| c x] eqn:Ev; [ discriminate Hq | ].
  assert (Hc : plain_char c = true)
    by (cbn [forallb] in Hv; apply andb_prop in Hv; tauto).
  assert (Hsp : forall d, In d (c :: x) -> Num.is_space d = false).
  { intros d Hd. rewrite forallb_forall in Hv.
    apply (plain_char_facts d (Hv d Hd)). }
  rewrite (float_of_plain_head c x Hc Hsp) in Hq.
  destruct (Num.decimal_of (c :: x)) as [q0 |] eqn:Ed; [ | discriminate ].
  unfold Num.literal in Hq.
  destruct (Qle_bool Num.overflow (Qabs q0)); [ discriminate | ].
  injection Hq as <-.
  destruct (decimal_of_scaled (c :: x) q0 (list_ascii_of_string r) E Hv Ed HE)
    as [m [k [-> Hs]]].
  set (tail := list_ascii_of_string r) in *.
  change ((c :: x) ++ "e"%char :: tail)%list
    with (c :: (x ++ "e"%char :: tail))%list.
  rewrite float_of_plain_head.
  - change (c :: (x ++ "e"%char :: tail))%list
      with ((c :: x) ++ "e"%char :: tail)%list.
    rewrite Hs. f_equal. apply literal_scaled.
  - exact Hc.
  - intros d [<- | Hd]; [ apply Hsp; left; reflexivity | ].
    apply in_app_or in Hd. destruct Hd as [Hd | [<- | Hd]].
    + apply Hsp. right. exact Hd.
    + reflexivity.
    + apply Hr, Hd.
Qed.

Lemma append_assoc (a b c : string) : ((a ++ b) ++ c = a ++ (b ++ c))%string.
Proof.
  induction a as [| x a IH]; [ reflexivity | ].
  cbn [append]. rewrite IH. reflexivity.
Qed.

(** A field of the pattern: a plain numeral and its unit, up to the next
    underscore. *)
Lemma split_value_field (v unit s : string) :
  plain_numeral v = true ->
  no_underscore unit = true ->
  Str.split "_" (v ++ unit ++ String "_" s)
  = (v ++ unit)%string :: Str.split "_" s.
Proof.
  intros Hv Hu. rewrite <- append_assoc. apply split_field.
  rewrite list_ascii_of_string_app, forallb_app.
  apply andb_true_intro. split; [ | exact Hu ].
  unfold plain_numeral in Hv. rewrite forallb_forall in *.
  intros c Hc. apply negb_true_iff, neq_eqb_false. intros ->.
  apply (proj2 (proj2 (proj2 (plain_char_facts "_"%char (Hv _ Hc))))).
  cbn [In]. tauto.
Qed.

Lemma split_nonempty (sep : ascii) (s : string) : Str.split sep s <> [].
Proof.
  destruct s as [| c s]; cbn [Str.split]; [ discriminate | ].
  destruct (Ascii.eqb c sep); [ discriminate | ].
  destruct (Str.split sep s); discriminate.
Qed.

(** The file names [parse_filename] accepts. *)
Lemma parse_filename_accepts (filename : string) :
  (exists r, parse_filename filename = Ok r)
  <-> (exists (descr f1 f2 : string) (rest : list string) (e c : pyfloat),
          Str.split "_" filename = descr :: f1 :: f2 :: rest
          /\ Num.float_of_string (Str.replace "MeVu" "e6" f1) = Some e
          /\ Num.float_of_string (Str.replace "uA" "e-6" f2) = Some c).
Proof.
  unfold parse_filename.
  destruct (Str.split "_" filename) as [| descr [| f1 [| f2 rest]]];
    cbn [nth_error or_raise bind].
  - split; [ intros [r E]; discriminate | ].
    intros (? & ? & ? & ? & ? & ? & E & _). discriminate.
  - split; [ intros [r E]; discriminate | ].
    intros (? & ? & ? & ? & ? & ? & E & _). discriminate.
  - split.
    + intros [r E].
      destruct (Num.float_of_string (Str.replace "MeVu" "e6" f1));
        discriminate.
    + intros (? & ? & ? & ? & ? & ? & E & _). discriminate.
  - destruct (Num.float_of_string (Str.replace "MeVu" "e6" f1)) as [e |] eqn:E1;
      cbn [or_raise bind].
    + destruct (Num.float_of_string (Str.replace "uA" "e-6" f2)) as [c |] eqn:E2;
        cbn [or_raise bind].
      * split; [ intros _ | intros _; eexists; reflexivity ].
        exists descr, f1, f2, rest, e, c. repeat split; assumption.
      * split; [ intros [r E]; discriminate | ].
        intros (? & ? & ? & ? & ? & ? & E & _ & E3).
        injection E as _ _ <- _. congruence.
    + split; [ intros [r E]; discriminate | ].
      intros (? & ? & ? & ? & ? & ? & E & E3 & _).
      injection E as _ <- _ _. congruence.
Qed.

(** The file names on which a look-up of a field raises [IndexError]:
    a single field, or two of which the second reads as a float. *)
Lemma parse_filename_index_error (filename : string) :
  parse_filename filename = Err IndexError
  <-> (exists descr : string, Str.split "_" filename = [descr])
      \/ (exists (descr f1 : string) (e : pyfloat),
             Str.split "_" filename = [descr; f1]
             /\ Num.float_of_string (Str.replace "MeVu" "e6" f1) = Some e).
Proof.
  unfold parse_filename. pose proof (split_nonempty "_" filename) as Hne.
  destruct (Str.split "_" filename) as [| descr [| f1 [| f2 rest]]];
    cbn [nth_error or_raise bind].
  - destruct (Hne eq_refl).
  - split; [ intros _; left; exists descr; reflexivity | reflexivity ].
  - destruct (Num.float_of_string (Str.replace "MeVu" "e6" f1)) as [e |] eqn:E1;
      cbn [or_raise bind].
    + split; [ intros _; right; exists descr, f1, e; auto | reflexivity ].
    + split; [ discriminate | ].
      intros [[d E] | (d & f & e & E & E2)]; [ discriminate | ].
      injection E as _ <-. congruence.
  - split.
    + destruct (Num.float_of_string (Str.replace "MeVu" "e6" f1));
        cbn [or_raise bind]; [ | discriminate ].
      destruct (Num.float_of_string (Str.replace "uA" "e-6" f2));
        cbn [or_raise bind]; discriminate.
    + intros [[d E] | (d & f & e & E & _)]; discriminate.
Qed.

(** The file names on which [float] raises [ValueError]: the second field
    does not read as a float, or it does and the third, which is there,
    does not. *)
Lemma parse_filename_value_error (filename : string) :
  parse_filename filename = Err ValueError
  <-> (exists (descr f1 : string) (rest : list string),
          Str.split "_" filename = descr :: f1 :: rest
          /\ Num.float_of_string (Str.replace "MeVu" "e6" f1) = None)
      \/ (exists (descr f1 f2 : string) (rest : list string) (e : pyfloat),
             Str.split "_" filename = descr :: f1 :: f2 :: rest
             /\ Num.float_of_string (Str.replace "MeVu" "e6" f1) = Some e
             /\ Num.float_of_string (Str.replace "uA" "e-6" f2) = None).
Proof.
  unfold parse_filename.
  destruct (Str.split "_" filename) as [| descr [| f1 rest]];
    cbn [nth_error or_raise bind].
  - split; [ discriminate | ].
    intros [(? & ? & ? & E & _) | (? & ? & ? & ? & ? & E & _)]; discriminate.
  - split; [ discriminate | ].
    intros [(? & ? & ? & E & _) | (? & ? & ? & ? & ? & E & _)]; discriminate.
  - destruct (Num.float_of_string (Str.replace "MeVu" "e6" f1)) as [e |] eqn:E1;
      cbn [or_raise bind].
    + destruct rest as [| f2 rest]; cbn [nth_error or_raise bind].
      * split; [ discriminate | ].
        intros [(? & ? & ? & E & E2) | (? & ? & ? & ? & ? & E & _)];
          [ injection E as _ <- _; congruence | discriminate ].
      * destruct (Num.float_of_string (Str.replace "uA" "e-6" f2)) as [c |] eqn:E2;
          cbn [or_raise bind].
        -- split; [ discriminate | ].
           intros [(? & ? & ? & E & E3) | (? & ? & ? & ? & ? & E & _ & E3)].
           ++ injection E as _ <- _. congruence.
           ++ injection E as _ _ <- _. congruence.
        -- split; [ intros _ | reflexivity ].
           right. exists descr, f1, f2, rest, e. auto.
    + split; [ intros _ | reflexivity ].
      left. exists descr, f1, rest. auto.
Qed.

(** No other exception leaves the function. *)
Lemma parse_filename_raises (filename : string) (e : exn) :
  parse_filename filename = Err e -> e = IndexError \/ e = ValueError.
Proof.
  unfold parse_filename.
  destruct (Str.split "_" filename) as [| descr [| f1 [| f2 rest]]];
    cbn [nth_error or_raise bind];
    repeat match goal with
           | |- context [Num.float_of_string ?x] =>
               destruct (Num.float_of_string x); cbn [or_raise bind]
           end;
    intros H; first [ discriminate H | injection H as <-; auto ].
Qed.

(** C9, as the code has it.  From a file name
    [<desc>_<value>MeVu_<value>uA_...], where the description holds no
    underscore and the values are plain decimal numerals, the function
    returns the description, the first value times [1e6] and the second
    value times [1e-6].  The units are not checked: the function succeeds
    exactly on the names with at least three underscore-separated fields
    whose second and third fields read as floats once [MeVu] is replaced
    by [e6] and [uA] by [e-6].  It raises [IndexError] exactly when the
    name has one field, or has two and the second reads as a float;
    [ValueError] exactly when the second field does not read as a float,
    or the second does and the third, being there, does not; and nothing
    else.  In particular ["58Ni26+_374MeVu_250uA_pos_0_0.tiq"] gives
    [("58Ni26+", 374e6, 250e-6)], and ["a_b"], of two fields, raises
    [ValueError]. *)
Theorem parse_filename_pattern :
  (forall (desc v1 v2 rest : string) (q1 q2 : Q),
      no_underscore desc = true ->
      plain_numeral v1 = true ->
      plain_numeral v2 = true ->
      Num.float_of_string v1 = Some (Finite q1) ->
      Num.float_of_string v2 = Some (Finite q2) ->
      parse_filename (desc ++ "_" ++ v1 ++ "MeVu_" ++ v2 ++ "uA_" ++ rest)
      = Ok (desc, Num.literal (q1 * pow10 6), Num.literal (q2 * pow10 (-6))))
  /\ (forall filename : string,
         (exists r, parse_filename filename = Ok r)
         <-> (exists (descr f1 f2 : string) (rest : list string)
                     (e c : pyfloat),
                 Str.split "_" filename = descr :: f1 :: f2 :: rest
                 /\ Num.float_of_string (Str.replace "MeVu" "e6" f1) = Some e
                 /\ Num.float_of_string (Str.replace "uA" "e-6" f2) = Some c))
  /\ (forall filename : string,
         parse_filename filename = Err IndexError
         <-> (exists descr : string, Str.split "_" filename = [descr])
             \/ (exists (descr f1 : string) (e : pyfloat),
                    Str.split "_" filename = [descr; f1]
                    /\ Num.float_of_string (Str.replace "MeVu" "e6" f1)
                       = Some e))
  /\ (forall filename : string,
         parse_filename filename = Err ValueError
         <-> (exists (descr f1 : string) (rest : list string),
                 Str.split "_" filename = descr :: f1 :: rest
                 /\ Num.float_of_string (Str.replace "MeVu" "e6" f1) = None)
             \/ (exists (descr f1 f2 : string) (rest : list string)
                        (e : pyfloat),
                    Str.split "_" filename = descr :: f1 :: f2 :: rest
                    /\ Num.float_of_string (Str.replace "MeVu" "e6" f1)
                       = Some e
                    /\ Num.float_of_string (Str.replace "uA" "e-6" f2)
                       = None))
  /\ (forall (filename : string) (e : exn),
         parse_filename filename = Err e -> e = IndexError \/ e = ValueError)
  /\ parse_filename "58Ni26+_374MeVu_250uA_pos_0_0.tiq"
     = Ok ("58Ni26+", Finite 374000000, Finite (1 # 4000))
  /\ parse_filename "58Ni26+" = Err IndexError
  /\ parse_filename "58Ni26+_374MeVu" = Err IndexError
  /\ parse_filename "a_b" = Err ValueError
  /\ parse_filename "58Ni26+_374MeVu_high_pos_0_0.tiq" = Err ValueError.
Proof.
  split; [ | split; [ exact parse_filename_accepts | ] ].
  2: { split; [ exact parse_filename_index_error | ].
       split; [ exact parse_filename_value_error | ].
       split; [ exact parse_filename_raises | ].
       repeat split; vm_compute; reflexivity. }
  intros desc v1 v2 rest q1 q2 Hd H1 H2 Hq1 Hq2. unfold parse_filename.
  change (desc ++ "_" ++ v1 ++ "MeVu_" ++ v2 ++ "uA_" ++ rest)%string
    with (desc ++ String "_"
            (v1 ++ "MeVu" ++ String "_" (v2 ++ "uA" ++ String "_" rest)))%string.
  rewrite (split_field "_" desc) by exact Hd.
  rewrite (split_value_field v1 "MeVu") by (exact H1 || reflexivity).
  rewrite (split_value_field v2 "uA") by (exact H2 || reflexivity).
  cbn [nth_error or_raise bind].
  rewrite (replace_unit "M" "eVu" "e6" v1) by (reflexivity || exact H1).
  rewrite (replace_unit "u" "A" "e-6" v2) by (reflexivity || exact H2).
  rewrite (float_of_scaled v1 "6" 6 q1 H1)
    by (reflexivity || exact Hq1
        || (intros d [<- | []]; reflexivity)).
  rewrite (float_of_scaled v2 "-6" (-6) q2 H2)
    by (reflexivity || exact Hq2
        || (intros d [<- | [<- | []]]; reflexivity)).
  reflexivity.
Qed.

(** The name of the docstring, through the general statement. *)
Lemma parse_filename_pattern_witness :
  parse_filename ("58Ni26+" ++ "_" ++ "374" ++ "MeVu_" ++ "250" ++ "uA_"
                  ++ "pos_0_0.tiq")
  = Ok ("58Ni26+", Num.literal (374 * pow10 6), Num.literal (250 * pow10 (-6))).
Proof.
  apply (proj1 parse_filename_pattern "58Ni26+" "374" "250" "pos_0_0.tiq"
           374%Q 250%Q); reflexivity.
Defined.

(** C9, as the spec states it, fails: a name whose numeric fields lack
    the units [MeVu] and [uA] is not refused; the numbers are returned as
    they stand. *)
Lemma parse_filename_without_units :
  parse_filename "58Ni26+_374_250_pos_0_0.tiq"
  = Ok ("58Ni26+", Finite 374, Finite 250).
Proof. vm_compute. reflexivity. Qed.

(* ================================================================== *)
(** * Further properties *)

(** ** get_iq_object: the dispatch *)

(** Every recognized extension with a one-argument data class selects that
    class and no other; the header file name plays no part, and an
    exception of the constructor is the exception of the call.  The
    comparison is made on the extension in lower case. *)
Theorem get_iq_object_dispatch {IQ : Type} (cls : iq_classes IQ)
  (filename : string) (header_filename : option string) :
  let ext := Str.lower (snd (splitext filename)) in
  let made (c : string -> result IQ) := d <- c filename ;; Ok (Some d) in
  (In ext [".txt"; ".csv"] ->
   get_iq_object cls filename header_filename = made (CSVData cls))
  /\ (ext = ".bin" ->
      get_iq_object cls filename header_filename = made (BINData cls))
  /\ (ext = ".wav" ->
      get_iq_object cls filename header_filename = made (WAVData cls))
  /\ (In ext [".iqt"; ".iq"] ->
      get_iq_object cls filename header_filename = made (IQTData cls))
  /\ (ext = ".tiq" ->
      get_iq_object cls filename header_filename = made (TIQData cls))
  /\ (ext = ".tdms" ->
      get_iq_object cls filename header_filename = made (TDMSData cls)).
Proof.
  intros ext made. unfold get_iq_object. fold ext. subst made.
  repeat split; intros H; cbn [In] in H;
    repeat match type of H with
           | _ \/ _ => destruct H as [H | H]
           | False => destruct H
           end;
    match type of H with
    | ext = _ => rewrite H
    | _ = ext => rewrite <- H
    end;
    cbn [String.eqb Ascii.eqb Bool.eqb orb andb branch bind];
    match goal with
    | |- context [?c cls filename] => destruct (c cls filename); reflexivity
    end.
Qed.

(** A tiq file given in upper case. *)
Lemma get_iq_object_dispatch_witness :
  get_iq_object
    {| CSVData := fun f => Ok ("csv", f); BINData := fun f => Ok ("bin", f);
       WAVData := fun f => Ok ("wav", f); IQTData := fun f => Ok ("iqt", f);
       TIQData := fun f => Ok ("tiq", f); TDMSData := fun _ => Err ValueError;
       TCAPData := fun f _ => Ok ("tcap", f);
       XDATData := fun f _ => Ok ("xdat", f) |}
    "/data/58Ni26+_374MeVu.TIQ" (Some "unused.txt")
  = Ok (Some ("tiq", "/data/58Ni26+_374MeVu.TIQ")).
Proof.
  apply (proj1 (proj2 (proj2 (proj2 (proj2
           (get_iq_object_dispatch
              {| CSVData := fun f => Ok ("csv", f);
                 BINData := fun f => Ok ("bin", f);
                 WAVData := fun f => Ok ("wav", f);
                 IQTData := fun f => Ok ("iqt", f);
                 TIQData := fun f => Ok ("tiq", f);
                 TDMSData := fun _ => Err ValueError;
                 TCAPData := fun f _ => Ok ("tcap", f);
                 XDATData := fun f _ => Ok ("xdat", f) |}
              "/data/58Ni26+_374MeVu.TIQ" (Some "unused.txt"))))))).
  reflexivity.
Defined.

(** The two classes that need a header: with a header file name that is
    not empty, [.dat] builds a [TCAPData] and [.xdat] an [XDATData] from
    both names; an empty header file name counts as none. *)
Theorem get_iq_object_with_header {IQ : Type} (cls : iq_classes IQ)
  (filename h : string) :
  let ext := Str.lower (snd (splitext filename)) in
  (Str.nonempty h = true -> ext = ".dat" ->
   get_iq_object cls filename (Some h)
   = (d <- TCAPData cls filename h ;; Ok (Some d)))
  /\ (Str.nonempty h = true -> ext = ".xdat" ->
      get_iq_object cls filename (Some h)
      = (d <- XDATData cls filename h ;; Ok (Some d)))
  /\ get_iq_object cls filename (Some EmptyString)
     = get_iq_object cls filename None.
Proof.
  intros ext. unfold get_iq_object. fold ext.
  split; [ | split; [ | reflexivity ] ]; intros Hh He; rewrite He;
    cbn [String.eqb Ascii.eqb Bool.eqb orb andb branch bind truthy];
    rewrite Hh.
  - destruct (TCAPData cls filename h); reflexivity.
  - destruct (XDATData cls filename h); reflexivity.
Qed.

Lemma get_iq_object_with_header_witness :
  get_iq_object
    {| CSVData := fun f => Ok (f, ""); BINData := fun f => Ok (f, "");
       WAVData := fun f => Ok (f, ""); IQTData := fun f => Ok (f, "");
       TIQData := fun f => Ok (f, ""); TDMSData := fun f => Ok (f, "");
       TCAPData := fun f h => Ok (f, h); XDATData := fun f h => Ok (f, h) |}
    "run7.xdat" (Some "run7.txt")
  = Ok (Some ("run7.xdat", "run7.txt")).
Proof.
  apply (proj1 (proj2
           (get_iq_object_with_header
              {| CSVData := fun f => Ok (f, ""); BINData := fun f => Ok (f, "");
                 WAVData := fun f => Ok (f, ""); IQTData := fun f => Ok (f, "");
                 TIQData := fun f => Ok (f, ""); TDMSData := fun f => Ok (f, "");
                 TCAPData := fun f h => Ok (f, h);
                 XDATData := fun f h => Ok (f, h) |}
              "run7.xdat" "run7.txt"))); reflexivity.
Defined.

(** ** get_eng_notation: rounding, domain and sign *)

Lemma pow2_pos (k : Z) : (0 < B64.pow2 k)%Q.
Proof. apply Qpower_0_lt. reflexivity. Qed.

Lemma pow2_plus (j k : Z) : (B64.pow2 (j + k) == B64.pow2 j * B64.pow2 k)%Q.
Proof. unfold B64.pow2. apply Qpower_plus. discriminate. Qed.

Lemma pow2_le (j k : Z) : j <= k -> (B64.pow2 j <= B64.pow2 k)%Q.
Proof. intros H. apply Qpower_le_compat_l; [ exact H | discriminate ]. Qed.

Lemma pow2_inject (n : Z) : 0 <= n -> (B64.pow2 n == inject_Z (2 ^ n))%Q.
Proof. intros Hn. unfold B64.pow2. symmetry. apply (Zpower_Qpower 2 n Hn). Qed.

(** [ilog2] does not overshoot. *)
Lemma ilog2_le (a : Q) (k : Z) :
  (0 < a)%Q -> (a <= B64.pow2 k)%Q -> B64.ilog2 a <= k.
Proof.
  intros Ha Hk. unfold B64.ilog2.
  set (k0 := Z.log2 (Qnum a) - Z.log2 (Z.pos (Qden a))).
  destruct (Qle_bool (B64.pow2 k0) a) eqn:E.
  - apply Qle_bool_iff in E.
    apply (Qpower_le_compat_l_inv (2 # 1)); [ | reflexivity ].
    eapply Qle_trans; [ exact E | exact Hk ].
  - assert (Hlt : (B64.pow2 (k0 - 1) < a)%Q).
    { destruct a as [n d]. cbn [Qnum Qden] in k0.
      assert (Hn : 0 < n) by (unfold Qlt in Ha; cbn in Ha; lia).
      pose proof (Z.log2_spec n Hn) as [Hn1 _].
      pose proof (Z.log2_spec (Z.pos d) (Pos2Z.is_pos d)) as [_ Hd2].
      pose proof (Z.log2_nonneg n) as Hln.
      pose proof (Z.log2_nonneg (Z.pos d)) as Hld.
      assert (H1 : (B64.pow2 (k0 - 1) * B64.pow2 (Z.succ (Z.log2 (Z.pos d)))
                    == B64.pow2 (Z.log2 n))%Q).
      { rewrite <- pow2_plus. unfold k0.
        replace (Z.log2 n - Z.log2 (Z.pos d) - 1 + Z.succ (Z.log2 (Z.pos d)))
          with (Z.log2 n) by lia.
        reflexivity. }
      rewrite (Qmake_Qdiv n d).
      apply Qlt_shift_div_l; [ reflexivity | ].
      apply Qlt_le_trans with (B64.pow2 (k0 - 1)
                               * B64.pow2 (Z.succ (Z.log2 (Z.pos d))))%Q.
      - apply Qmult_lt_l; [ apply pow2_pos | ].
        rewrite pow2_inject by lia. rewrite <- Zlt_Qlt. exact Hd2.
      - rewrite H1, pow2_inject by lia. rewrite <- Zle_Qle. exact Hn1. }
    assert (k0 - 1 < k); [ | lia ].
    apply (Qpower_lt_compat_l_inv (2 # 1)); [ | reflexivity ].
    eapply Qlt_le_trans; [ exact Hlt | exact Hk ].
Qed.

Lemma nearest_even_le (x : Q) (N : Z) :
  (x <= inject_Z N)%Q -> B64.nearest_even x <= N.
Proof.
  intros H. unfold B64.nearest_even.
  assert (Hf : Qfloor x <= N).
  { rewrite <- (Qfloor_Z N). apply Qfloor_resp_le, H. }
  assert (Hup : (1 # 2 <= x - inject_Z (Qfloor x))%Q -> Qfloor x + 1 <= N).
  { intros Hh. destruct (Z.eq_dec (Qfloor x) N) as [E | E]; [ | lia ].
    exfalso. rewrite E in Hh.
    Lqa.lra. }
  destruct (Qcompare (x - inject_Z (Qfloor x)) (1 # 2)) eqn:C.
  - apply Qeq_alt in C. destruct (Z.even (Qfloor x)); [ exact Hf | ].
    apply Hup. rewrite C. apply Qle_refl.
  - exact Hf.
  - apply Qgt_alt in C. apply Hup. apply Qlt_le_weak, C.
Qed.

Lemma nearest_even_nonneg (x : Q) : (0 <= x)%Q -> 0 <= B64.nearest_even x.
Proof.
  intros H. unfold B64.nearest_even.
  assert (Hf : 0 <= Qfloor x).
  { change 0 with (Qfloor 0). apply Qfloor_resp_le, H. }
  destruct (Qcompare (x - inject_Z (Qfloor x)) (1 # 2));
    [ destruct (Z.even (Qfloor x)) | | ]; lia.
Qed.

(** Rounding keeps a number within a bound that is a power of two, and
    does not change its sign. *)
Lemma round_bound (q : Q) (k : Z) :
  -1074 <= k -> (Qabs q <= B64.pow2 k)%Q ->
  (Qabs (B64.round q) <= B64.pow2 k)%Q /\ ((0 <= q)%Q -> (0 <= B64.round q)%Q).
Proof.
  intros Hk Hq. unfold B64.round.
  destruct (Qeq_bool q 0) eqn:E0.
  { split; [ apply Qlt_le_weak, pow2_pos | intros _; apply Qle_refl ]. }
  apply Qeq_bool_neq in E0.
  assert (Ha : (0 < Qabs q)%Q).
  { destruct (Qlt_le_dec 0 (Qabs q)) as [H | H]; [ exact H | ].
    exfalso. apply E0.
    assert (Hz : (Qabs q == 0)%Q)
      by (apply Qle_antisym; [ exact H | apply Qabs_nonneg ]).
    destruct (Qabs_Qle_condition q 0) as [Hc _].
    destruct (Hc H) as [H1 H2]. Lqa.lra. }
  set (a := Qabs q) in *.
  set (e := Z.max (B64.ilog2 a - 52) (-1074)).
  assert (He : e <= k).
  { pose proof (ilog2_le a k Ha Hq). unfold e. lia. }
  set (m := B64.nearest_even (a / B64.pow2 e)).
  assert (Hpe : (0 < B64.pow2 e)%Q) by apply pow2_pos.
  assert (Hm0 : 0 <= m).
  { apply nearest_even_nonneg. apply Qle_shift_div_l; [ exact Hpe | ].
    rewrite Qmult_0_l. apply Qlt_le_weak, Ha. }
  assert (Hm : m <= 2 ^ (k - e)).
  { apply nearest_even_le. rewrite <- pow2_inject by lia.
    apply Qle_shift_div_r; [ exact Hpe | ].
    rewrite <- pow2_plus. replace (k - e + e) with k by lia. exact Hq. }
  assert (Hme : (inject_Z m * B64.pow2 e <= B64.pow2 k)%Q).
  { replace k with (k - e + e) at 1 by lia. rewrite pow2_plus.
    apply Qmult_le_compat_r; [ | apply Qlt_le_weak, Hpe ].
    rewrite pow2_inject by lia. rewrite <- Zle_Qle. exact Hm. }
  assert (Hm0' : (0 <= inject_Z m)%Q)
    by (change 0%Q with (inject_Z 0); rewrite <- Zle_Qle; exact Hm0).
  assert (Hp : (0 <= inject_Z m * B64.pow2 e)%Q)
    by (apply Qmult_le_0_compat; [ exact Hm0' | apply Qlt_le_weak, Hpe ]).
  rewrite Qred_correct. split.
  - destruct (Qle_bool 0 q).
    + rewrite Qmult_1_l, Qabs_pos by exact Hp. exact Hme.
    + setoid_replace (-1 * inject_Z m * B64.pow2 e)%Q
        with (- (inject_Z m * B64.pow2 e))%Q by ring.
      rewrite Qabs_opp, Qabs_pos by exact Hp. exact Hme.
  - intros H0. rewrite (proj2 (Qle_bool_iff 0 q) H0).
    rewrite Qmult_1_l. exact Hp.
Qed.

(** A number within [2^k], [k < 1024], rounds to a finite float within
    the same bound and of the same sign. *)
Lemma of_Q_bounded (q : Q) (k : Z) :
  -1074 <= k < 1024 -> (0 <= q)%Q -> (q <= B64.pow2 k)%Q ->
  exists r, B64.of_Q q = Finite r /\ (0 <= r)%Q /\ (r <= B64.pow2 k)%Q.
Proof.
  intros Hk H0 Hq.
  assert (Ha : (Qabs q <= B64.pow2 k)%Q) by (rewrite Qabs_pos; assumption).
  destruct (round_bound q k (proj1 Hk) Ha) as [Hb Hs].
  unfold B64.of_Q.
  destruct (Qle_bool (B64.pow2 1024) (Qabs (B64.round q))) eqn:E.
  - exfalso. apply Qle_bool_iff in E.
    apply (Qlt_irrefl (B64.pow2 k)).
    eapply Qlt_le_trans; [ | eapply Qle_trans; [ exact E | exact Hb ] ].
    apply Qpower_lt_compat_l; [ lia | reflexivity ].
  - exists (B64.round q). split; [ reflexivity | ].
    split; [ apply Hs, H0 | ].
    rewrite <- (Qabs_pos (B64.round q)) by (apply Hs, H0). exact Hb.
Qed.

Lemma filter_none {A : Type} (P : A -> bool) (l : list A) :
  (forall a, In a l -> P a = false) -> filter P l = [].
Proof.
  induction l as [| a l IH]; intros H; [ reflexivity | ].
  cbn [filter]. rewrite (H a) by (left; reflexivity).
  apply IH. intros b Hb. apply H. right. exact Hb.
Qed.

(** The powers of ten of the table: none is below [10 ** -24], and as a
    divisor each is a positive [int] or a float, of at least [2^-80] once
    it is a float. *)
Lemma ten_pow_key (key : Z) :
  In key (map fst ref) ->
  exists y y0 r : Q,
    Py.exact (Py.ten_pow key) = Finite y
    /\ Py.exact (Py.ten_pow (-24)) = Finite y0
    /\ (y0 <= y)%Q
    /\ Py.to_float (Py.ten_pow key) = Ok (Finite r)
    /\ (B64.pow2 (-80) <= r)%Q
    /\ ((exists z, Py.ten_pow key = Int z /\ 0 < z)
        \/ exists x, Py.ten_pow key = Flt x).
Proof.
  cbn [map fst ref In]. intros H.
  repeat (destruct H as [<- | H];
          [ eexists; eexists; eexists;
            split; [ vm_compute; reflexivity | ];
            split; [ vm_compute; reflexivity | ];
            split; [ vm_compute; discriminate | ];
            split; [ vm_compute; reflexivity | ];
            split; [ vm_compute; discriminate | ];
            first [ left; eexists; split; [ vm_compute; reflexivity | reflexivity ]
                  | right; eexists; vm_compute; reflexivity ] | ]).
  destruct H.
Qed.

Lemma to_float_bounded (v : number) (a : Q) (k : Z) :
  -1074 <= k < 1024 ->
  Py.exact v = Finite a -> (0 <= a)%Q -> (a <= B64.pow2 k)%Q ->
  exists r, Py.to_float v = Ok (Finite r) /\ (0 <= r)%Q /\ (r <= B64.pow2 k)%Q.
Proof.
  intros Hk Hv H0 Ha. destruct v as [z | x]; cbn [Py.exact] in Hv.
  - injection Hv as <-. cbn [Py.to_float].
    destruct (of_Q_bounded (inject_Z z) k Hk H0 Ha) as [r [-> Hr]].
    exists r. split; [ reflexivity | exact Hr ].
  - subst x. exists a. cbn [Py.to_float]. auto.
Qed.

Lemma float_div_bounded (x y : Q) (k j : Z) :
  -1074 <= k + j < 1024 ->
  (0 <= x)%Q -> (x <= B64.pow2 k)%Q -> (B64.pow2 (- j) <= y)%Q ->
  exists q, Py.float_div (Finite x) (Finite y) = Ok (Finite q)
            /\ (0 <= q)%Q /\ (q <= B64.pow2 (k + j))%Q.
Proof.
  intros Hk H0 Hx Hy.
  assert (Hy0 : (0 < y)%Q)
    by (eapply Qlt_le_trans; [ apply pow2_pos | exact Hy ]).
  unfold Py.float_div. cbn [Py.is_zero].
  destruct (Qeq_bool y 0) eqn:E.
  { apply Qeq_bool_eq in E. rewrite E in Hy0. discriminate Hy0. }
  destruct (of_Q_bounded (x / y) (k + j) Hk) as [q [-> Hq]].
  - apply Qle_shift_div_l; [ exact Hy0 | ]. rewrite Qmult_0_l. exact H0.
  - apply Qle_shift_div_r; [ exact Hy0 | ].
    eapply Qle_trans; [ exact Hx | ].
    setoid_replace (B64.pow2 k)
      with (B64.pow2 (k + j) * B64.pow2 (- j))%Q
      by (rewrite <- pow2_plus; replace (k + j + - j) with k by lia;
          reflexivity).
    apply Qmult_le_l; [ apply pow2_pos | exact Hy ].
  - exists q. split; [ reflexivity | exact Hq ].
Qed.

Lemma int_div_bounded (x y k : Z) :
  -1074 <= k < 1024 ->
  0 <= x -> (inject_Z x <= B64.pow2 k)%Q -> 0 < y ->
  exists q, Py.truediv (Int x) (Int y) = Ok (Finite q)
            /\ (0 <= q)%Q /\ (q <= B64.pow2 k)%Q.
Proof.
  intros Hk H0 Hx Hy. cbn [Py.truediv].
  destruct (y =? 0) eqn:E; [ apply Z.eqb_eq in E; lia | ].
  assert (Hy1 : (1 <= inject_Z y)%Q)
    by (change 1%Q with (inject_Z 1); rewrite <- Zle_Qle; lia).
  assert (Hx0 : (0 <= inject_Z x)%Q)
    by (change 0%Q with (inject_Z 0); rewrite <- Zle_Qle; exact H0).
  destruct (of_Q_bounded (inject_Z x / inject_Z y) k Hk) as [q [-> Hq]].
  - apply Qle_shift_div_l; [ Lqa.lra | ]. rewrite Qmult_0_l. exact Hx0.
  - apply Qle_shift_div_r; [ Lqa.lra | ].
    eapply Qle_trans; [ exact Hx | ].
    rewrite <- (Qmult_1_r (B64.pow2 k)) at 1.
    apply Qmult_le_l; [ apply pow2_pos | exact Hy1 ].
  - exists q. split; [ reflexivity | exact Hq ].
Qed.

(** The quotient by a power of ten of the table. *)
Lemma truediv_key (v : number) (a : Q) (num : Z) :
  Py.exact v = Finite a -> (0 <= a)%Q -> (a <= B64.pow2 90)%Q ->
  In num (map fst ref) ->
  exists q, Py.truediv v (Py.ten_pow num) = Ok (Finite q)
            /\ (0 <= q)%Q /\ (q <= B64.pow2 170)%Q.
Proof.
  intros Hv H0 Ha Hin.
  destruct (ten_pow_key num Hin)
    as (y & y0 & r & _ & _ & _ & Hf & Hr & Hshape).
  destruct (to_float_bounded v a 90 ltac:(lia) Hv H0 Ha)
    as (x & Hx & Hx0 & Hx90).
  destruct (float_div_bounded x r 90 80 ltac:(lia) Hx0 Hx90 Hr)
    as (q & Hq & Hq0 & Hq170).
  change (90 + 80) with 170 in Hq170.
  assert (Hgen : (x0 <- Py.to_float v ;; y1 <- Py.to_float (Py.ten_pow num) ;;
                  Py.float_div x0 y1) = Ok (Finite q)).
  { rewrite Hx, Hf. cbn [bind]. exact Hq. }
  destruct v as [z | xv].
  - destruct Hshape as [(d & Hd & Hd0) | (xd & Hd)]; rewrite Hd in *.
    + cbn [Py.exact] in Hv. injection Hv as <-.
      destruct (int_div_bounded z d 90 ltac:(lia)) as (q' & Hq' & Hq'0 & Hq'90).
      * rewrite Zle_Qle. exact H0.
      * exact Ha.
      * exact Hd0.
      * exists q'. split; [ exact Hq' | split; [ exact Hq'0 | ] ].
        eapply Qle_trans; [ exact Hq'90 | apply pow2_le; lia ].
    + exists q. split; [ exact Hgen | auto ].
  - exists q. split; [ | auto ].
    destruct (Py.ten_pow num); exact Hgen.
Qed.

Lemma ten_pow_nonneg (k : Z) : 0 <= k -> Py.ten_pow k = Int (10 ^ k).
Proof.
  intros H. unfold Py.ten_pow. rewrite (proj2 (Z.leb_le 0 k) H). reflexivity.
Qed.

Lemma pow10_le_pow2 (k : Z) :
  0 <= k -> (inject_Z (10 ^ k) <= B64.pow2 (4 * k))%Q.
Proof.
  intros H. rewrite pow2_inject by lia. rewrite <- Zle_Qle.
  rewrite Z.pow_mul_r by lia. apply Z.pow_le_mono_l. lia.
Qed.

Lemma trunc_nonneg (q : Q) :
  (0 <= q)%Q -> 0 <= Num.trunc q /\ (inject_Z (Num.trunc q) <= q)%Q.
Proof.
  intros Hq. unfold Num.trunc. rewrite (proj2 (Qle_bool_iff 0 q) Hq).
  split; [ | apply Qfloor_le ].
  change 0 with (Qfloor 0). apply Qfloor_resp_le, Hq.
Qed.

(** From a quotient within [2^170] on, the steps of the mantissa return
    for up to 200 decimals. *)
Lemma mantissa_steps (q : Q) (decimal_place : Z) :
  (0 <= q)%Q -> (q <= B64.pow2 170)%Q -> 0 <= decimal_place <= 200 ->
  exists r,
    (p <- Py.mul (Finite q) (Py.ten_pow decimal_place) ;;
     m <- Py.int p ;;
     Py.truediv (Int m) (Py.ten_pow decimal_place)) = Ok (Finite r).
Proof.
  intros H0 Hq Hd. rewrite (ten_pow_nonneg decimal_place) by lia.
  assert (Hp0 : 0 < 10 ^ decimal_place) by (apply Z.pow_pos_nonneg; lia).
  assert (Hp : (inject_Z (10 ^ decimal_place) <= B64.pow2 800)%Q).
  { eapply Qle_trans; [ apply pow10_le_pow2; lia | apply pow2_le; lia ]. }
  destruct (to_float_bounded (Int (10 ^ decimal_place)) _ 800 ltac:(lia)
              eq_refl) as (y & Hy & Hy0 & Hy800);
    [ change 0%Q with (inject_Z 0); rewrite <- Zle_Qle; lia | exact Hp | ].
  unfold Py.mul. rewrite Hy. cbn [bind Py.float_mul].
  destruct (of_Q_bounded (q * y) 970 ltac:(lia)) as (p & -> & Hp0' & Hp970).
  - apply Qmult_le_0_compat; assumption.
  - change 970 with (170 + 800). rewrite pow2_plus.
    eapply Qle_trans; [ apply Qmult_le_compat_r; [ exact Hq | exact Hy0 ] | ].
    apply Qmult_le_l; [ apply pow2_pos | exact Hy800 ].
  - cbn [Py.int bind].
    destruct (trunc_nonneg p Hp0') as [Hm0 Hm].
    destruct (int_div_bounded (Num.trunc p) (10 ^ decimal_place) 970
                ltac:(lia) Hm0) as (r & Hr & _);
      [ eapply Qle_trans; [ exact Hm | exact Hp970 ] | exact Hp0 | ].
    exists r. exact Hr.
Qed.

(** A number that passes no test against the smallest power passes none. *)
Lemma ge_smallest_key (v : number) (key : Z) :
  In key (map fst ref) ->
  Py.ge v (Py.ten_pow (-24)) = false -> Py.ge v (Py.ten_pow key) = false.
Proof.
  intros Hin. destruct (ten_pow_key key Hin) as (y & y0 & r & Hy & Hy0 & Hle & _).
  unfold Py.ge. rewrite Hy, Hy0.
  destruct (Py.exact v) as [x | n |]; try (intros H; exact H).
  intros H. destruct (Qle_bool y x) eqn:E; [ | reflexivity ].
  apply Qle_bool_iff in E.
  rewrite <- H. symmetry. apply Qle_bool_iff.
  eapply Qle_trans; [ exact Hle | exact E ].
Qed.

(** A magnitude between the smallest power and [10 ** 27] is a finite
    number within [2^90]. *)
Lemma magnitude_bounded (value : number) :
  Py.ge (Py.abs value) (Py.ten_pow (-24)) = true ->
  Py.ge (Py.ten_pow 27) (Py.abs value) = true ->
  exists a, Py.exact (Py.abs value) = Finite a
            /\ (0 <= a)%Q /\ (a <= B64.pow2 90)%Q.
Proof.
  intros Hlo Hhi.
  assert (Hb : forall a, Py.exact (Py.abs value) = Finite a ->
                         (a <= B64.pow2 90)%Q).
  { intros a Ha. unfold Py.ge in Hhi. rewrite Ha in Hhi.
    change (Py.exact (Py.ten_pow 27)) with (Finite (inject_Z (10 ^ 27))) in Hhi.
    cbv iota in Hhi. apply Qle_bool_iff in Hhi.
    eapply Qle_trans; [ exact Hhi | vm_compute; discriminate ]. }
  destruct value as [z | [x | n |]].
  - exists (inject_Z (Z.abs z)). split; [ reflexivity | ].
    split; [ | apply Hb; reflexivity ].
    change 0%Q with (inject_Z 0). rewrite <- Zle_Qle. apply Z.abs_nonneg.
  - exists (Qabs x). split; [ reflexivity | ].
    split; [ apply Qabs_nonneg | apply Hb; reflexivity ].
  - discriminate Hhi.
  - discriminate Hlo.
Qed.

(** Where the formatter answers.  Zero is printed as [0] and the unit.
    A number other than zero whose magnitude does not reach [10 ** -24],
    the double nearest to [1e-24], passes no test of the table, and so does
    [nan]: [max] of the empty list raises [ValueError].  A number of
    magnitude from [10 ** -24] to [10 ** 27] is printed, for every number
    of decimals from 0 to 200. *)
Theorem get_eng_notation_domain (value : number) (unit : string)
  (decimal_place : Z) :
  (Py.eq0 value = true ->
   get_eng_notation value unit decimal_place = Ok ("0" ++ unit))
  /\ (Py.eq0 value = false ->
      Py.ge (Py.abs value) (Py.ten_pow (-24)) = false ->
      get_eng_notation value unit decimal_place = Err ValueError)
  /\ (Py.ge (Py.abs value) (Py.ten_pow (-24)) = true ->
      Py.ge (Py.ten_pow 27) (Py.abs value) = true ->
      0 <= decimal_place <= 200 ->
      exists s, get_eng_notation value unit decimal_place = Ok s).
Proof.
  split; [ | split ].
  - intros Hz. unfold get_eng_notation. rewrite Hz. reflexivity.
  - intros Hz Hsmall. unfold get_eng_notation. rewrite Hz.
    rewrite filter_none; [ reflexivity | ].
    intros key Hkey. apply ge_smallest_key; assumption.
  - intros Hlo Hhi Hd. unfold get_eng_notation.
    destruct (Py.eq0 value); [ eexists; reflexivity | ].
    destruct (magnitude_bounded value Hlo Hhi) as (a & Ha & Ha0 & Ha90).
    destruct (py_max_filter
                (fun key => Py.ge (Py.abs value) (Py.ten_pow key))
                (map fst ref) (-24))
      as (num & Hmax & Hin & _); [ simpl; tauto | exact Hlo | ].
    rewrite Hmax. cbn [or_raise bind].
    destruct (truediv_key (Py.abs value) a num Ha Ha0 Ha90 Hin)
      as (q & -> & Hq0 & Hq170).
    cbn [bind].
    destruct (mantissa_steps q decimal_place Hq0 Hq170 Hd) as (r & Hr).
    destruct (Py.mul (Finite q) (Py.ten_pow decimal_place)) as [p | e];
      cbn [bind] in Hr |- *; [ | discriminate Hr ].
    destruct (Py.int p) as [m | e]; cbn [bind] in Hr |- *;
      [ | discriminate Hr ].
    rewrite Hr. cbn [bind]. eexists. reflexivity.
Qed.

(** Zero volts; [2^-80] amperes, below a yoctoampere; 1130 Hz. *)
Lemma get_eng_notation_domain_witness :
  get_eng_notation (Flt (Finite 0)) "V" 2 = Ok ("0" ++ "V")
  /\ get_eng_notation (Flt (Finite (1 # 2 ^ 80))) "A" 2 = Err ValueError
  /\ exists s, get_eng_notation (Int 1130) "Hz" 2 = Ok s.
Proof.
  split; [ | split ].
  - apply (proj1 (get_eng_notation_domain (Flt (Finite 0)) "V" 2)).
    reflexivity.
  - apply (proj1 (proj2 (get_eng_notation_domain
                           (Flt (Finite (1 # 2 ^ 80))) "A" 2)));
      vm_compute; reflexivity.
  - apply (proj2 (proj2 (get_eng_notation_domain (Int 1130) "Hz" 2)));
      [ vm_compute; reflexivity | vm_compute; reflexivity | lia ].
Defined.

(** Outside that range the arithmetic can refuse: a power of ten too
    large for a float, an infinite product, a power of ten that underflows
    to zero. *)
Lemma get_eng_notation_refusals :
  get_eng_notation (Int 5) "V" 400 = Err OverflowError
  /\ get_eng_notation (Int (10 ^ 400)) "V" 2 = Err OverflowError
  /\ get_eng_notation (Flt (Inf false)) "V" 2 = Err OverflowError
  /\ get_eng_notation (Flt NaN) "V" 2 = Err ValueError
  /\ get_eng_notation (Int 5) "V" (-400) = Err ZeroDivisionError.
Proof. vm_compute. repeat split; reflexivity. Qed.

Lemma Qabs_opp_eq (q : Q) : Qabs (- q) = Qabs q.
Proof.
  destruct q as [n d]. unfold Qabs, Qopp. cbn [Qnum Qden].
  rewrite Z.abs_opp. reflexivity.
Qed.

(** The sign is a prefix and nothing more: a negative number is printed as
    the minus sign followed by what its magnitude is printed as. *)
Theorem get_eng_notation_negative (value : number) (unit : string)
  (decimal_place : Z) (s : string) :
  Py.gt0 value = true ->
  get_eng_notation value unit decimal_place = Ok s ->
  get_eng_notation (Py.neg value) unit decimal_place = Ok ("-" ++ s).
Proof.
  intros Hpos. unfold get_eng_notation.
  assert (H : Py.eq0 value = false /\ Py.eq0 (Py.neg value) = false
              /\ Py.lt0 value = false /\ Py.lt0 (Py.neg value) = true
              /\ Py.abs (Py.neg value) = Py.abs value).
  { destruct value as [z | [q | n |]];
      cbn [Py.gt0 Py.eq0 Py.lt0 Py.neg Py.abs] in *.
    - apply Z.ltb_lt in Hpos.
      repeat split; try (apply Z.eqb_neq; lia);
        try (apply Z.ltb_ge; lia); try (apply Z.ltb_lt; lia).
      rewrite Z.abs_opp. reflexivity.
    - apply negb_true_iff in Hpos.
      assert (Hq : (0 < q)%Q).
      { apply Qnot_le_lt. intros Hle. apply Qle_bool_iff in Hle. congruence. }
      assert (Hle : Qle_bool 0 q = true)
        by (apply Qle_bool_iff, Qlt_le_weak, Hq).
      assert (Hle' : Qle_bool 0 (- q) = false).
      { destruct (Qle_bool 0 (- q)) eqn:E; [ | reflexivity ].
        apply Qle_bool_iff in E. exfalso. Lqa.lra. }
      assert (Hnz : Qeq_bool q 0 = false).
      { destruct (Qeq_bool q 0) eqn:E; [ | reflexivity ].
        apply Qeq_bool_eq in E. exfalso. Lqa.lra. }
      assert (Hnz' : Qeq_bool (- q) 0 = false).
      { destruct (Qeq_bool (- q) 0) eqn:E; [ | reflexivity ].
        apply Qeq_bool_eq in E. exfalso. Lqa.lra. }
      rewrite Hle, Hle', Hnz, Hnz', Qabs_opp_eq. repeat split.
    - apply negb_true_iff in Hpos. subst n. repeat split.
    - discriminate Hpos. }
  destruct H as (Hz & Hz' & Hl & Hl' & Ha).
  rewrite Hz, Hz', Hl, Hl', Ha.
  destruct (py_max _) as [num |]; cbn [or_raise bind]; [ | discriminate ].
  repeat match goal with
         | |- context [bind ?r _] =>
             destruct r; cbn [bind]; [ | discriminate ]
         end.
  intros E. injection E as <-. reflexivity.
Qed.

Lemma get_eng_notation_negative_witness :
  get_eng_notation (Py.neg (Int 1234567)) "V" 3 = Ok ("-" ++ "1.234MV").
Proof.
  apply (get_eng_notation_negative (Int 1234567) "V" 3 "1.234MV");
    vm_compute; reflexivity.
Defined.

(** ** The spectrogram pair: frames, inferred rows, round trip *)

Lemma chunks_nth_error {A : Type} (n l : nat) (x : list A) (i : nat) :
  (i < n)%nat ->
  nth_error (chunks n l x) i = Some (firstn l (skipn (i * l) x)).
Proof.
  revert x i. induction n as [| n IH]; intros x i Hi; [ lia | ].
  destruct i as [| i]; cbn [chunks nth_error].
  - reflexivity.
  - rewrite IH by lia. rewrite skipn_skipn.
    replace (i * l + l)%nat with (S i * l)%nat by lia. reflexivity.
Qed.

(** Framing is row-major and loses nothing: on a full grid the row [i] of
    the spectrogram is the transform of the [lframes] samples that start
    at the index [i * lframes]. *)
Theorem get_cplx_spectrogram_frames {C : Type} `{Transform C} (x : list C)
  (nframes lframes : Z) (i : nat) :
  0 <= nframes -> 1 <= lframes ->
  Z.of_nat (List.length x) = nframes * lframes ->
  Z.of_nat i < nframes ->
  exists zz,
    get_cplx_spectrogram x nframes lframes = Ok zz
    /\ List.length (rows zz) = Z.to_nat nframes
    /\ nth_error (rows zz) i
       = Some (fft (firstn (Z.to_nat lframes)
                      (skipn (i * Z.to_nat lframes) x))).
Proof.
  intros Hn Hl Hs Hi.
  rewrite (get_cplx_spectrogram_full x nframes lframes Hn Hl Hs).
  eexists. split; [ reflexivity | ]. cbn [rows]. split.
  - rewrite length_map. clear Hs Hi. generalize (Z.to_nat lframes) as l.
    generalize x. induction (Z.to_nat nframes) as [| n IH]; intros y l;
      cbn [chunks List.length]; [ reflexivity | rewrite IH; reflexivity ].
  - rewrite nth_error_map, chunks_nth_error by lia. reflexivity.
Qed.

Lemma get_cplx_spectrogram_frames_witness :
  exists zz,
    @get_cplx_spectrogram Z {| fft := map Z.succ; ifft := map Z.pred |}
      [10; 20; 30; 40; 50; 60] 3 2 = Ok zz
    /\ List.length (rows zz) = Z.to_nat 3
    /\ nth_error (rows zz) 2
       = Some (map Z.succ (firstn (Z.to_nat 2)
                             (skipn (2 * Z.to_nat 2) [10; 20; 30; 40; 50; 60]))).
Proof.
  apply (@get_cplx_spectrogram_frames Z
           {| fft := map Z.succ; ifft := map Z.pred |}
           [10; 20; 30; 40; 50; 60] 3 2 2); [ lia | lia | reflexivity | lia ].
Defined.

(** With [nframes = -1] the number of frames is left to numpy: the call
    succeeds exactly when [lframes >= 1] divides the number of samples, and
    the spectrogram then has [len(x) / lframes] rows. *)
Theorem get_cplx_spectrogram_inferred {C : Type} `{Transform C} (x : list C)
  (lframes : Z) :
  1 <= lframes ->
  let size := Z.of_nat (List.length x) in
  (size mod lframes = 0 ->
   get_cplx_spectrogram x (-1) lframes
   = Ok {| nrows := size / lframes; ncols := lframes;
           rows := map fft (chunks (Z.to_nat (size / lframes))
                              (Z.to_nat lframes) x) |})
  /\ (size mod lframes <> 0 ->
      get_cplx_spectrogram x (-1) lframes = Err ValueError).
Proof.
  intros Hl size. unfold get_cplx_spectrogram, reshape. fold size.
  change (-1 <? 0) with true.
  destruct (lframes <? 0) eqn:El; [ lia | ]. cbn [andb].
  destruct (lframes =? 0) eqn:E0; [ lia | ]. cbn [orb].
  split; intros Hm.
  - rewrite (proj2 (Z.eqb_eq _ _) Hm). cbn [negb bind].
    unfold along_axis1. cbn [mk_matrix ncols nrows rows].
    destruct (lframes <? 1) eqn:E1; [ lia | reflexivity ].
  - rewrite (proj2 (Z.eqb_neq _ _) Hm). reflexivity.
Qed.

Lemma get_cplx_spectrogram_inferred_witness :
  @get_cplx_spectrogram Z {| fft := map Z.succ; ifft := map Z.pred |}
    [1; 2; 3; 4; 5; 6] (-1) 3
  = Ok {| nrows := 2; ncols := 3; rows := [[2; 3; 4]; [5; 6; 7]] |}
  /\ @get_cplx_spectrogram Z {| fft := map Z.succ; ifft := map Z.pred |}
       [1; 2; 3; 4; 5; 6; 7] (-1) 3
     = Err ValueError.
Proof.
  split.
  - apply (@get_cplx_spectrogram_inferred Z
             {| fft := map Z.succ; ifft := map Z.pred |}
             [1; 2; 3; 4; 5; 6] 3); [ lia | reflexivity ].
  - apply (@get_cplx_spectrogram_inferred Z
             {| fft := map Z.succ; ifft := map Z.pred |}
             [1; 2; 3; 4; 5; 6; 7] 3); [ lia | discriminate ].
Defined.

(** The wrappers add nothing of their own to the transforms: whenever the
    inverse transform undoes the transform on every row, the inverse
    spectrogram of the spectrogram of a full grid is the sample sequence
    itself. *)
Theorem get_inv_cplx_spectrogram_undoes {C : Type} `{Transform C}
  (x : list C) (nframes lframes : Z) :
  (forall row : list C, ifft (fft row) = row) ->
  0 <= nframes -> 1 <= lframes ->
  Z.of_nat (List.length x) = nframes * lframes ->
  (zz <- get_cplx_spectrogram x nframes lframes ;;
   get_inv_cplx_spectrogram zz nframes lframes) = Ok x.
Proof. exact (spectrogram_round_trip_exact x nframes lframes). Qed.

Lemma get_inv_cplx_spectrogram_undoes_witness :
  (zz <- @get_cplx_spectrogram Z {| fft := map Z.succ; ifft := map Z.pred |}
           [10; 20; 30; 40; 50; 60] 3 2 ;;
   @get_inv_cplx_spectrogram Z {| fft := map Z.succ; ifft := map Z.pred |}
     zz 3 2)
  = Ok [10; 20; 30; 40; 50; 60].
Proof.
  apply (@get_inv_cplx_spectrogram_undoes Z
           {| fft := map Z.succ; ifft := map Z.pred |}
           [10; 20; 30; 40; 50; 60] 3 2); [ | lia | lia | reflexivity ].
  intros row. cbn [fft ifft]. rewrite map_map.
  rewrite (map_ext _ (fun z => z)) by (intros z; apply Z.pred_succ).
  apply map_id.
Defined.

(** ** make_test_signal: the amplitude *)

Lemma sum_of_sines_bound (s : Z -> R) (l : list Z) :
  (forall i, -1 <= s i <= 1)%R ->
  (Rabs (fold_right Rplus 0 (map s l)) <= INR (List.length l))%R.
Proof.
  intros Hs. induction l as [| i l IH].
  - cbn [map fold_right List.length INR]. rewrite Rabs_R0. lra.
  - cbn [map fold_right]. change (List.length (i :: l)) with (S (List.length l)).
    rewrite S_INR. eapply Rle_trans; [ apply Rabs_triang | ].
    assert (Rabs (s i) <= 1)%R
      by (apply Rabs_le; destruct (Hs i); split; lra).
    lra.
Qed.

(** Without noise the signal is bounded by the number of sinusoids it is
    made of: no sample exceeds [nharm + 1] in magnitude. *)
Theorem make_test_signal_amplitude (normal : nat -> list R) (f fs length : Q)
  (nharm : Z) :
  ~ (fs == 0)%Q ->
  exists (t : list Q) (x : list R),
    make_test_signal normal f fs length nharm false = Ok (t, x)
    /\ List.length x = List.length t
    /\ forall k : nat,
         (Rabs (nth k x 0) <= INR (Z.to_nat (nharm + 1)))%R.
Proof.
  intros Hfs.
  assert (E : Qeq_bool fs 0 = false).
  { destruct (Qeq_bool fs 0) eqn:E; [ | reflexivity ].
    exfalso. apply Hfs, Qeq_bool_eq, E. }
  rewrite (make_test_signal_closed_form normal f fs length nharm E).
  eexists. eexists. split; [ reflexivity | ].
  split; [ apply length_map | ].
  intros k.
  assert (Hb : forall tk, (Rabs (harmonic_sum f nharm tk)
                           <= INR (Z.to_nat (nharm + 1)))%R).
  { intros tk. unfold harmonic_sum.
    eapply Rle_trans; [ apply sum_of_sines_bound; intros i; apply SIN_bound | ].
    rewrite length_map, length_seq. apply Rle_refl. }
  destruct (Nat.lt_ge_cases k
              (List.length (map (harmonic_sum f nharm)
                              (arange 0 length (1 / fs))))) as [Hk | Hk].
  - rewrite (nth_indep _ 0%R (harmonic_sum f nharm 0%Q)) by exact Hk.
    rewrite map_nth. apply Hb.
  - rewrite nth_overflow by exact Hk. rewrite Rabs_R0. apply pos_INR.
Qed.

Lemma make_test_signal_amplitude_witness :
  exists (t : list Q) (x : list R),
    make_test_signal (fun n => repeat 0%R n) 440 48000 2 3 false = Ok (t, x)
    /\ List.length x = List.length t
    /\ forall k : nat, (Rabs (nth k x 0) <= INR (Z.to_nat (3 + 1)))%R.
Proof.
  apply (make_test_signal_amplitude (fun n => repeat 0%R n) 440 48000 2 3).
  discriminate.
Defined.

(** ** The frequency axes *)



(** ** read_specan_xml: repeated, missing and unreadable elements *)

Lemma assign_loop_app {A : Type} (f : element -> result A)
  (es1 es2 : list element) (v0 : option A) :
  for_each (fun _ e => v <- f e ;; Ok (Some v)) (es1 ++ es2) v0
  = (v1 <- for_each (fun _ e => v <- f e ;; Ok (Some v)) es1 v0 ;;
     for_each (fun _ e => v <- f e ;; Ok (Some v)) es2 v1).
Proof.
  revert v0. induction es1 as [| e es1 IH]; intros v0; [ reflexivity | ].
  cbn [app for_each]. destruct (f e); cbn [bind]; [ apply IH | reflexivity ].
Qed.

Lemma assign_loop_readable {A : Type} (f : element -> result A)
  (es : list element) (v0 : option A) :
  readable f es ->
  exists v1, for_each (fun _ e => v <- f e ;; Ok (Some v)) es v0 = Ok v1.
Proof.
  intros H. revert v0. induction H as [| e es [v He] _ IH]; intros v0.
  - eexists. reflexivity.
  - cbn [for_each]. rewrite He. cbn [bind]. apply IH.
Qed.

(** Of several elements with one tag the last one counts. *)
Lemma assign_each_last {A : Type} (f : element -> result A) (t : string)
  (root : element) (es : list element) (e : element) (v : A) :
  iter t root = (es ++ [e])%list -> readable f es -> f e = Ok v ->
  assign_each f t root = Ok (Some v).
Proof.
  intros Hi Hes He. unfold assign_each. rewrite Hi, assign_loop_app.
  destruct (assign_loop_readable f es None Hes) as [v1 ->].
  cbn [bind for_each]. rewrite He. reflexivity.
Qed.

(** The first element that cannot be read ends the loop with its
    exception. *)
Lemma assign_each_error {A : Type} (f : element -> result A) (t : string)
  (root : element) (es1 es2 : list element) (e : element) (err : exn) :
  iter t root = (es1 ++ e :: es2)%list -> readable f es1 -> f e = Err err ->
  assign_each f t root = Err err.
Proof.
  intros Hi Hes He. unfold assign_each. rewrite Hi, assign_loop_app.
  destruct (assign_loop_readable f es1 None Hes) as [v1 ->].
  cbn [bind for_each]. rewrite He. reflexivity.
Qed.

Lemma assign_each_opt {A : Type} (f : element -> result A) (t : string)
  (root : element) (o : option A) :
  declares_opt f t root o -> assign_each f t root = Ok o.
Proof.
  destruct o as [v |]; cbn [declares_opt].
  - apply assign_each_declared.
  - intros Hi. unfold assign_each. rewrite Hi. reflexivity.
Qed.

(** The reader after its six loops, when none of them raises. *)
Lemma read_specan_xml_assigned (root : element) (count : option Z)
  (start stop : option pyfloat) (xunits yunits : option (option string))
  (vs : list pyfloat) :
  assign_each (convert Num.int_of_string) "Count" root = Ok count ->
  assign_each (convert Num.float_of_string) "XStart" root = Ok start ->
  assign_each (convert Num.float_of_string) "XStop" root = Ok stop ->
  assign_each (fun e => Ok (text_of e)) "XUnits" root = Ok xunits ->
  assign_each (fun e => Ok (text_of e)) "YUnits" root = Ok yunits ->
  hold (iter "y" root) vs ->
  read_specan_xml root
  = (count <- or_raise UnboundLocalError count ;;
     p <- zeros count ;;
     '(p, i) <- for_each fill (iter "y" root) (p, O) ;;
     start <- or_raise UnboundLocalError start ;;
     stop <- or_raise UnboundLocalError stop ;;
     f <- linspace start stop count ;;
     xunits <- or_raise UnboundLocalError xunits ;;
     yunits <- or_raise UnboundLocalError yunits ;;
     Ok (f, p, (xunits, yunits))).
Proof.
  intros Hc Hs He Hx Hy Hv. unfold read_specan_xml.
  rewrite Hc, Hs, He, Hx, Hy. cbn [bind].
  destruct (assign_each_hold _ _ Hv None) as [pwr Hp].
  unfold assign_each at 1. rewrite Hp. reflexivity.
Qed.

(** The values the filling loop leaves in an array of [count] zeros. *)
Lemma fill_zeros (es : list element) (vs : list pyfloat) (count : Z) :
  hold es vs -> 0 <= count -> Z.of_nat (List.length vs) <= count ->
  for_each fill es (repeat F.zero (Z.to_nat count), O)
  = Ok ((vs ++ repeat F.zero (Z.to_nat count - List.length vs))%list,
        List.length vs).
Proof.
  intros Hv H0 Hn.
  rewrite (fill_fits _ _ Hv) by (rewrite repeat_length; simpl; lia).
  cbn [firstn app Nat.add]. rewrite skipn_repeat_same. reflexivity.
Qed.

(** When a document repeats [Count], the last occurrence is the one that
    sizes the arrays: with readable earlier occurrences and as many [y]
    elements as the last one declares, the reader returns the axis of that
    many points and the values. *)
Theorem read_specan_xml_last_count (root : element) (es : list element)
  (e : element) (count : Z) (start stop : pyfloat)
  (xunits yunits : option string) (vs : list pyfloat) :
  iter "Count" root = (es ++ [e])%list ->
  readable (convert Num.int_of_string) es ->
  convert Num.int_of_string e = Ok count ->
  declares (convert Num.float_of_string) "XStart" root start ->
  declares (convert Num.float_of_string) "XStop" root stop ->
  declares (fun e => Ok (text_of e)) "XUnits" root xunits ->
  declares (fun e => Ok (text_of e)) "YUnits" root yunits ->
  hold (iter "y" root) vs ->
  Z.of_nat (List.length vs) = count ->
  exists f,
    linspace start stop count = Ok f
    /\ read_specan_xml root = Ok (f, vs, (xunits, yunits)).
Proof.
  intros Hi Hes He Hs Hp Hx Hy Hv Hn.
  destruct (linspace_ok start stop count ltac:(lia)) as [f Hf].
  exists f. split; [ exact Hf | ].
  rewrite (read_specan_xml_assigned root (Some count) (Some start) (Some stop)
             (Some xunits) (Some yunits) vs);
    [ | exact (assign_each_last _ _ _ _ _ _ Hi Hes He)
      | apply assign_each_declared; assumption ..
      | exact Hv ].
  cbn [or_raise bind]. unfold zeros.
  destruct (count <? 0) eqn:E; [ lia | ]. cbn [bind].
  rewrite (fill_zeros _ _ count Hv) by lia. cbn [bind].
  rewrite Hf. cbn [bind or_raise].
  replace (Z.to_nat count - List.length vs)%nat with 0%nat by lia.
  cbn [repeat]. rewrite app_nil_r. reflexivity.
Qed.

Ltac all_readable :=
  solve [ unfold readable;
          repeat (constructor; [ eexists; vm_compute; reflexivity | ]);
          constructor ].

(** A document that states the count twice, first as 7 and then as 5. *)
Lemma read_specan_xml_last_count_witness :
  exists f,
    linspace (Finite 0) (Finite 4) 5 = Ok f
    /\ read_specan_xml
         (trace_with (tagged "Count" "7" :: tagged "Count" "5"
                      :: bounds_and_units)
            (map (tagged "y") five_points))
       = Ok (f, five_values, (Some "Hz", Some "dBm")).
Proof.
  apply (read_specan_xml_last_count
           (trace_with (tagged "Count" "7" :: tagged "Count" "5"
                        :: bounds_and_units)
              (map (tagged "y") five_points))
           [tagged "Count" "7"] (tagged "Count" "5") 5
           (Finite 0) (Finite 4) (Some "Hz") (Some "dBm") five_values);
    first [ all_readable | declared | held | vm_compute; reflexivity ].
Defined.

(** A scalar that no element declares is a local variable that is never
    assigned: when one of [Count], [XStart], [XStop], [XUnits] and [YUnits]
    is missing, and the [y] elements are readable and fit the count, the
    reader raises [UnboundLocalError]. *)
Theorem read_specan_xml_unbound (root : element) (count : option Z)
  (start stop : option pyfloat) (xunits yunits : option (option string))
  (vs : list pyfloat) :
  declares_opt (convert Num.int_of_string) "Count" root count ->
  declares_opt (convert Num.float_of_string) "XStart" root start ->
  declares_opt (convert Num.float_of_string) "XStop" root stop ->
  declares_opt (fun e => Ok (text_of e)) "XUnits" root xunits ->
  declares_opt (fun e => Ok (text_of e)) "YUnits" root yunits ->
  hold (iter "y" root) vs ->
  (forall c, count = Some c -> Z.of_nat (List.length vs) <= c) ->
  count = None \/ start = None \/ stop = None \/ xunits = None
  \/ yunits = None ->
  read_specan_xml root = Err UnboundLocalError.
Proof.
  intros Hc Hs He Hx Hy Hv Hfit Hmiss.
  rewrite (read_specan_xml_assigned root count start stop xunits yunits vs)
    by (apply assign_each_opt; assumption) || exact Hv.
  destruct count as [c |]; cbn [or_raise bind]; [ | reflexivity ].
  specialize (Hfit c eq_refl).
  assert (H0 : 0 <= c) by lia.
  unfold zeros. destruct (c <? 0) eqn:E; [ lia | ]. cbn [bind].
  rewrite (fill_zeros _ _ c Hv H0 Hfit). cbn [bind].
  destruct start as [a |]; cbn [or_raise bind]; [ | reflexivity ].
  destruct stop as [b |]; cbn [or_raise bind]; [ | reflexivity ].
  destruct (linspace_ok a b c H0) as [f ->]. cbn [bind].
  destruct xunits as [xu |]; cbn [or_raise bind]; [ | reflexivity ].
  destruct yunits as [yu |]; cbn [or_raise bind]; [ | reflexivity ].
  destruct Hmiss as [H | [H | [H | [H | H]]]]; discriminate H.
Qed.

(** A document without its units. *)
Lemma read_specan_xml_unbound_witness :
  read_specan_xml
    (trace_with [tagged "Count" "5"; tagged "XStart" "0"; tagged "XStop" "4"]
       (map (tagged "y") five_points))
  = Err UnboundLocalError.
Proof.
  apply (read_specan_xml_unbound
           (trace_with [tagged "Count" "5"; tagged "XStart" "0";
                        tagged "XStop" "4"]
              (map (tagged "y") five_points))
           (Some 5) (Some (Finite 0)) (Some (Finite 4)) None None five_values);
    first [ declared | held | vm_compute; reflexivity
          | (intros c E; injection E as <-; vm_compute; discriminate)
          | (right; right; right; left; reflexivity) ].
Defined.

(** The exception of an element that cannot be read.  A [Count] that is
    not an integer literal, or has no text, ends the call before anything
    else is looked at; with the five scalars declared, the first [y]
    element that is not a float literal, or has no text, does.  The
    exception is [ValueError] for a text the parser refuses and [TypeError]
    for an element without text. *)
Theorem read_specan_xml_unreadable (root : element) (es1 es2 : list element)
  (e : element) :
  let err := match text_of e with
             | None => TypeError
             | Some _ => ValueError
             end in
  (iter "Count" root = (es1 ++ e :: es2)%list ->
   readable (convert Num.int_of_string) es1 ->
   (forall s, text_of e = Some s -> Num.int_of_string s = None) ->
   read_specan_xml root = Err err)
  /\ (forall (count : Z) (start stop : pyfloat)
             (xunits yunits : option string),
         declares (convert Num.int_of_string) "Count" root count ->
         declares (convert Num.float_of_string) "XStart" root start ->
         declares (convert Num.float_of_string) "XStop" root stop ->
         declares (fun e => Ok (text_of e)) "XUnits" root xunits ->
         declares (fun e => Ok (text_of e)) "YUnits" root yunits ->
         iter "y" root = (es1 ++ e :: es2)%list ->
         readable (convert Num.float_of_string) es1 ->
         (forall s, text_of e = Some s -> Num.float_of_string s = None) ->
         read_specan_xml root = Err err).
Proof.
  intros err.
  assert (Hbad : forall (A : Type) (parse : string -> option A),
             (forall s, text_of e = Some s -> parse s = None) ->
             convert parse e = Err err).
  { intros A parse H. unfold convert. subst err.
    destruct (text_of e) as [s |]; [ | reflexivity ].
    rewrite (H s eq_refl). reflexivity. }
  split.
  - intros Hi Hes He. unfold read_specan_xml.
    rewrite (assign_each_error _ _ _ _ _ _ _ Hi Hes (Hbad _ _ He)).
    reflexivity.
  - intros count start stop xunits yunits Hc Hs Hp Hx Hy Hi Hes He.
    unfold read_specan_xml.
    rewrite (assign_each_declared _ _ _ _ Hc), (assign_each_declared _ _ _ _ Hs),
      (assign_each_declared _ _ _ _ Hp), (assign_each_declared _ _ _ _ Hx),
      (assign_each_declared _ _ _ _ Hy).
    cbn [bind].
    rewrite (assign_each_error _ _ _ _ _ _ _ Hi Hes (Hbad _ _ He)).
    reflexivity.
Qed.

(** A count written as a float, and a power value that is a dash. *)
Lemma read_specan_xml_unreadable_witness :
  read_specan_xml
    (trace_with (tagged "Count" "5.0" :: bounds_and_units)
       (map (tagged "y") five_points))
  = Err ValueError
  /\ read_specan_xml
       (trace_with (tagged "Count" "3" :: bounds_and_units)
          [tagged "y" "-80.5"; tagged "y" "--"; tagged "y" "-81"])
     = Err ValueError.
Proof.
  split.
  - apply (proj1 (read_specan_xml_unreadable
                    (trace_with (tagged "Count" "5.0" :: bounds_and_units)
                       (map (tagged "y") five_points))
                    [] [] (tagged "Count" "5.0")));
      first [ all_readable | vm_compute; reflexivity
            | (intros s E; injection E as <-; vm_compute; reflexivity) ].
  - apply (proj2 (read_specan_xml_unreadable
                    (trace_with (tagged "Count" "3" :: bounds_and_units)
                       [tagged "y" "-80.5"; tagged "y" "--"; tagged "y" "-81"])
                    [tagged "y" "-80.5"] [tagged "y" "-81"] (tagged "y" "--"))
             3 (Finite 0) (Finite 4) (Some "Hz") (Some "dBm"));
      first [ all_readable | declared | vm_compute; reflexivity
            | (intros s E; injection E as <-; vm_compute; reflexivity) ].
Defined.

(** A negative [Count] is refused by [np.zeros] with a [ValueError], once
    the six loops have read the document. *)
Theorem read_specan_xml_negative_count (root : element) (count : Z)
  (start stop : option pyfloat) (xunits yunits : option (option string))
  (vs : list pyfloat) :
  declares (convert Num.int_of_string) "Count" root count ->
  declares_opt (convert Num.float_of_string) "XStart" root start ->
  declares_opt (convert Num.float_of_string) "XStop" root stop ->
  declares_opt (fun e => Ok (text_of e)) "XUnits" root xunits ->
  declares_opt (fun e => Ok (text_of e)) "YUnits" root yunits ->
  hold (iter "y" root) vs ->
  count < 0 ->
  read_specan_xml root = Err ValueError.
Proof.
  intros Hc Hs He Hx Hy Hv Hneg.
  rewrite (read_specan_xml_assigned root (Some count) start stop xunits
             yunits vs)
    by (apply assign_each_opt; assumption) || exact Hv.
  cbn [or_raise bind]. unfold zeros.
  destruct (count <? 0) eqn:E; [ reflexivity | lia ].
Qed.

Lemma read_specan_xml_negative_count_witness :
  read_specan_xml
    (trace_with (tagged "Count" "-5" :: bounds_and_units)
       (map (tagged "y") five_points))
  = Err ValueError.
Proof.
  apply (read_specan_xml_negative_count
           (trace_with (tagged "Count" "-5" :: bounds_and_units)
              (map (tagged "y") five_points))
           (-5) (Some (Finite 0)) (Some (Finite 4)) (Some (Some "Hz"))
           (Some (Some "dBm")) five_values);
    first [ lia | declared | held ].
Defined.



(** ** read_result_csv: missing keys, bad values, short files *)

(** The reader on a well-formed file, by the metadata lines. *)
Lemma read_result_csv_well_formed (cont : list string) :
  well_formed cont = true ->
  read_result_csv cont
  = (p <- genfromtxt cont 63 ;;
     start <- or_raise UnboundLocalError (metadata_value "XStart" cont) ;;
     center <- or_raise UnboundLocalError (metadata_value "Frequency" cont) ;;
     stop <- or_raise UnboundLocalError (metadata_value "XStop" cont) ;;
     n <- len p ;;
     f <- linspace (F.sub start center) (F.sub stop center) n ;;
     Ok (f, p)).
Proof.
  intros Hw. unfold read_result_csv.
  destruct (genfromtxt cont 63) as [p | err]; [ | reflexivity ].
  cbn [bind]. rewrite (scan_well_formed cont Hw).
  cbn [bind center start stop no_locals].
  destruct (metadata_value "XStart" cont), (metadata_value "Frequency" cont),
    (metadata_value "XStop" cont); reflexivity.
Qed.

(** A key without a metadata line is a local variable that is never
    assigned: on a well-formed file whose data can be read, the reader
    raises [UnboundLocalError] when [Frequency], [XStart] or [XStop] has no
    metadata line. *)
Theorem read_result_csv_missing_key (cont : list string) (p : ndarray) :
  well_formed cont = true ->
  genfromtxt cont 63 = Ok p ->
  metadata_value "Frequency" cont = None
  \/ metadata_value "XStart" cont = None
  \/ metadata_value "XStop" cont = None ->
  read_result_csv cont = Err UnboundLocalError.
Proof.
  intros Hw Hp Hmiss. rewrite (read_result_csv_well_formed cont Hw), Hp.
  cbn [bind].
  destruct (metadata_value "XStart" cont); cbn [or_raise bind];
    [ | reflexivity ].
  destruct (metadata_value "Frequency" cont); cbn [or_raise bind];
    [ | reflexivity ].
  destruct (metadata_value "XStop" cont); cbn [or_raise bind];
    [ | reflexivity ].
  destruct Hmiss as [H | [H | H]]; discriminate H.
Qed.

(** A file without its [XStop] line. *)
Lemma read_result_csv_missing_key_witness :
  read_result_csv
    (result_file_with 61 ["Frequency,2450000000,Hz
"; "XStart,2449999000,Hz
"] ["-90.5
"; "-91.25
"])
  = Err UnboundLocalError.
Proof.
  eapply (read_result_csv_missing_key
            (result_file_with 61 ["Frequency,2450000000,Hz
"; "XStart,2449999000,Hz
"] ["-90.5
"; "-91.25
"]));
    [ vm_compute; reflexivity | vm_compute; reflexivity
    | right; right; vm_compute; reflexivity ].
Defined.

Lemma csv_line_outcome (st : csv_locals) (l : string) :
  (exists st', csv_line st l = Ok st') \/ csv_line st l = Err ValueError.
Proof.
  unfold csv_line, key_line, second_float.
  destruct (Str.split "," l) as [| f0 [| f1 [| f2 [| f3 fs]]]];
    cbn [List.length Nat.eqb andb nth_error or_raise bind];
    rewrite ?andb_false_r; cbn [bind]; eauto.
  rewrite ?andb_true_r.
  repeat match goal with
         | |- context [if ?c then _ else _] =>
             destruct c; cbn [bind or_raise]
         | |- context [Num.float_of_string f1] =>
             destruct (Num.float_of_string f1); cbn [bind or_raise]
         end; eauto.
Qed.

Lemma csv_line_bad_value (st : csv_locals) (l key : string) :
  In key csv_keys ->
  key_line key (Str.split "," l) = true ->
  Num.float_of_string (nth 1 (Str.split "," l) EmptyString) = None ->
  csv_line st l = Err ValueError.
Proof.
  intros Hk Hl Hf. unfold csv_line.
  assert (Hs : second_float (Str.split "," l) = Err ValueError).
  { unfold second_float, key_line in *.
    destruct (Str.split "," l) as [| f0 [| f1 fs]];
      cbn [List.length Nat.eqb andb nth nth_error or_raise bind] in *;
      rewrite ?andb_false_r in Hl; try discriminate Hl.
    rewrite Hf. reflexivity. }
  rewrite Hs. cbn [bind].
  cbn [csv_keys In] in Hk. destruct Hk as [<- | [<- | [<- | []]]];
    rewrite ?Hl;
    repeat match goal with
           | |- context [if ?c then _ else _] => destruct c; cbn [bind]
           end; try reflexivity; try discriminate Hl.
Qed.

(** A three-field line that holds a key but no number in its second field
    makes the reader raise [ValueError]; this is so in particular when the
    key is the second field itself.  Nothing checks that the key is the
    first token. *)
Theorem read_result_csv_bad_value (cont : list string) (p : ndarray)
  (l key : string) :
  genfromtxt cont 63 = Ok p ->
  In l cont ->
  In key csv_keys ->
  key_line key (Str.split "," l) = true ->
  Num.float_of_string (nth 1 (Str.split "," l) EmptyString) = None ->
  read_result_csv cont = Err ValueError.
Proof.
  intros Hp Hin Hk Hl Hf. unfold read_result_csv. rewrite Hp. cbn [bind].
  clear Hp.
  assert (Hscan : forall st, for_each csv_line cont st = Err ValueError).
  { induction cont as [| l0 cont IH]; [ destruct Hin | ].
    intros st. cbn [for_each].
    destruct Hin as [-> | Hin].
    - rewrite (csv_line_bad_value st l key Hk Hl Hf). reflexivity.
    - destruct (csv_line_outcome st l0) as [[st' ->] | ->]; cbn [bind];
        [ apply IH, Hin | reflexivity ]. }
  rewrite Hscan. reflexivity.
Qed.

(** A line that names the key in its second field. *)
Lemma read_result_csv_bad_value_witness :
  read_result_csv
    (result_file_with 59 ("Span,XStop,Hz
" :: three_keys) ["-90.5
"; "-91.25
"])
  = Err ValueError.
Proof.
  eapply (read_result_csv_bad_value
            (result_file_with 59 ("Span,XStop,Hz
" :: three_keys) ["-90.5
"; "-91.25
"])
            _ "Span,XStop,Hz
" "XStop");
    [ vm_compute; reflexivity
    | apply in_or_app; right; left; reflexivity
    | right; right; left; reflexivity
    | vm_compute; reflexivity
    | vm_compute; reflexivity ].
Defined.

(** A file with a single power value cannot be read: [genfromtxt] returns
    an array of dimension zero, and [len] of it raises [TypeError]. *)
Theorem read_result_csv_single_value (cont : list string) (tok : string)
  (c s e : pyfloat) :
  well_formed cont = true ->
  metadata_value "Frequency" cont = Some c ->
  metadata_value "XStart" cont = Some s ->
  metadata_value "XStop" cont = Some e ->
  filter (fun r => negb (List.length r =? 0)%nat)
    (map split_line (skipn 63 cont)) = [[tok]] ->
  read_result_csv cont = Err TypeError.
Proof.
  intros Hw Hc Hs He Hd. rewrite (read_result_csv_well_formed cont Hw).
  unfold genfromtxt. rewrite Hd.
  cbn [List.length forallb Nat.eqb andb map squeeze bind].
  rewrite Hs, Hc, He. reflexivity.
Qed.

Lemma read_result_csv_single_value_witness :
  read_result_csv (result_file_with 60 three_keys ["
"; "-90.5
"; "# end
"])
  = Err TypeError.
Proof.
  eapply (read_result_csv_single_value
            (result_file_with 60 three_keys ["
"; "-90.5
"; "# end
"]));
    vm_compute; reflexivity.
Defined.

(** A file of 63 lines or fewer has no data: with its three metadata
    lines in place, the reader returns an empty axis and an empty array. *)
Theorem read_result_csv_no_data (cont : list string) (c s e : pyfloat) :
  (List.length cont <= 63)%nat ->
  well_formed cont = true ->
  metadata_value "Frequency" cont = Some c ->
  metadata_value "XStart" cont = Some s ->
  metadata_value "XStop" cont = Some e ->
  read_result_csv cont = Ok ([], Vec []).
Proof.
  intros Hlen Hw Hc Hs He. rewrite (read_result_csv_well_formed cont Hw).
  unfold genfromtxt. rewrite (skipn_all2 cont Hlen).
  cbn [map filter bind]. rewrite Hs, Hc, He. reflexivity.
Qed.

Lemma read_result_csv_no_data_witness :
  read_result_csv (result_file_with 60 three_keys []) = Ok ([], Vec []).
Proof.
  eapply (read_result_csv_no_data (result_file_with 60 three_keys []));
    [ vm_compute; lia | vm_compute; reflexivity .. ].
Defined.



(** ** read_data_csv: rows of I and Q *)

Lemma view_c16_pairs (ps : list (pyfloat * pyfloat)) :
  view_c16 (List.concat (map (fun p => [fst p; snd p]) ps)) = Ok ps.
Proof.
  induction ps as [| [re im] ps IH]; [ reflexivity | ].
  cbn [map List.concat app fst snd view_c16]. rewrite IH. reflexivity.
Qed.

Lemma ravel_squeeze_pairs (ps : list (pyfloat * pyfloat)) :
  ravel (squeeze (map (fun p => [fst p; snd p]) ps))
  = List.concat (map (fun p => [fst p; snd p]) ps).
Proof.
  destruct ps as [| p1 [| p2 ps]]; reflexivity.
Qed.

(** A data file whose lines after the ten header lines each hold two
    comma-separated fields, blank lines apart, is read as one complex
    sample per line, in the order of the lines: the first field is the
    real part and the second the imaginary part, and a field that is not a
    number becomes [nan].  This holds for any number of lines, none and
    one included. *)
Theorem read_data_csv_rows (lines : list string)
  (fields : list (string * string)) :
  filter (fun r => negb (List.length r =? 0)%nat)
    (map (split_line_at ",") (skipn 10 lines))
  = map (fun ab => [fst ab; snd ab]) fields ->
  read_data_csv lines
  = Ok (map (fun ab => (loose_float (fst ab), loose_float (snd ab))) fields).
Proof.
  intros Ht. unfold read_data_csv, genfromtxt_delimited. rewrite Ht.
  assert (Hcols : forallb (fun r => (List.length r =? 2)%nat)
                    (map (fun ab : string * string => [fst ab; snd ab]) fields)
                  = true).
  { apply forallb_forall. intros r Hr. apply in_map_iff in Hr.
    destruct Hr as [ab [<- _]]. reflexivity. }
  assert (Hconv : map (map loose_float)
                    (map (fun ab : string * string => [fst ab; snd ab]) fields)
                  = map (fun p => [fst p; snd p])
                      (map (fun ab => (loose_float (fst ab),
                                       loose_float (snd ab))) fields)).
  { rewrite !map_map. reflexivity. }
  destruct fields as [| ab fields]; [ reflexivity | ].
  rewrite Hconv.
  change (map (fun ab0 : string * string => [fst ab0; snd ab0]) (ab :: fields))
    with ([fst ab; snd ab]
            :: map (fun ab0 : string * string => [fst ab0; snd ab0]) fields)
    in Hcols |- *.
  cbn [List.length]. rewrite Hcols. cbn [bind].
  rewrite ravel_squeeze_pairs. apply view_c16_pairs.
Qed.

(** Two samples, a blank line between them. *)
Lemma read_data_csv_rows_witness :
  read_data_csv (repeat "; header
" 10 ++ ["0.5,-0.25
"; "
"; "3e-3, 4
"])%list
  = Ok (map (fun ab => (loose_float (fst ab), loose_float (snd ab)))
          [("0.5", "-0.25"); ("3e-3", " 4")]).
Proof.
  apply (read_data_csv_rows
           (repeat "; header
" 10 ++ ["0.5,-0.25
"; "
"; "3e-3, 4
"])%list
           [("0.5", "-0.25"); ("3e-3", " 4")]).
  vm_compute. reflexivity.
Defined.

(** What the view gives: for an even number of values, the pairs whose
    parts, written out in order, are the values again; for an odd number,
    a [ValueError]. *)
Lemma view_c16_outcome (a : list pyfloat) :
  (Nat.even (List.length a) = true ->
   exists z, view_c16 a = Ok z
             /\ (2 * List.length z = List.length a)%nat
             /\ a = List.concat (map (fun p => [fst p; snd p]) z))
  /\ (Nat.even (List.length a) = false -> view_c16 a = Err ValueError).
Proof.
  assert (H : forall n (b : list pyfloat),
             (List.length b <= n)%nat ->
             (Nat.even (List.length b) = true ->
              exists z, view_c16 b = Ok z
                        /\ (2 * List.length z = List.length b)%nat
                        /\ b = List.concat (map (fun p => [fst p; snd p]) z))
             /\ (Nat.even (List.length b) = false ->
                 view_c16 b = Err ValueError)).
  { induction n as [| n IH]; intros b Hb.
    - destruct b; [ | cbn [List.length] in Hb; lia ].
      split; [ intros _; exists []; repeat split | discriminate ].
    - destruct b as [| re [| im b]].
      + split; [ intros _; exists []; repeat split | discriminate ].
      + split; [ discriminate | reflexivity ].
      + cbn [List.length] in Hb.
        destruct (IH b ltac:(lia)) as [He Ho].
        change (Nat.even (List.length (re :: im :: b)))
          with (Nat.even (List.length b)).
        cbn [view_c16]. split; intros E.
        * destruct (He E) as (z & -> & Hz & Hc). cbn [bind].
          exists ((re, im) :: z). split; [ reflexivity | ].
          split; [ cbn [List.length]; lia | ].
          cbn [map List.concat fst snd app]. rewrite <- Hc. reflexivity.
        * rewrite (Ho E). reflexivity. }
  exact (H (List.length a) a (Nat.le_refl _)).
Qed.

(** The samples are the values of the table, in row-major order, taken
    two by two: when [genfromtxt] reads an even number of values, sample
    [k] has value [2k] as its real part and value [2k + 1] as its
    imaginary part, so that the parts of the samples written out in order
    are the values again and there are half as many samples as values; an
    odd number of values is refused with a [ValueError]. *)
Theorem read_data_csv_pairing (lines : list string) (data : ndarray) :
  genfromtxt_delimited lines 10 "," = Ok data ->
  (Nat.even (List.length (ravel data)) = true ->
   exists z,
     read_data_csv lines = Ok z
     /\ (2 * List.length z = List.length (ravel data))%nat
     /\ ravel data = List.concat (map (fun p => [fst p; snd p]) z)
     /\ forall k re im,
          nth_error z k = Some (re, im) ->
          nth_error (ravel data) (2 * k) = Some re
          /\ nth_error (ravel data) (2 * k + 1) = Some im)
  /\ (Nat.even (List.length (ravel data)) = false ->
      read_data_csv lines = Err ValueError).
Proof.
  intros Hd. unfold read_data_csv. rewrite Hd. cbn [bind].
  destruct (view_c16_outcome (ravel data)) as [He Ho].
  split; [ | exact Ho ].
  intros E. destruct (He E) as (z & Hz & Hlen & Hc).
  exists z. split; [ exact Hz | ]. split; [ exact Hlen | ].
  split; [ exact Hc | ].
  rewrite Hc. clear. induction z as [| [re0 im0] z IH]; intros k re im Hk.
  - destruct k; discriminate Hk.
  - destruct k as [| k].
    + injection Hk as <- <-. split; reflexivity.
    + cbn [nth_error] in Hk. destruct (IH k re im Hk) as [H1 H2].
      cbn [map List.concat fst snd app].
      replace (2 * S k)%nat with (S (S (2 * k))) by lia.
      replace (S (S (2 * k)) + 1)%nat with (S (S (2 * k + 1))) by lia.
      cbn [nth_error]. split; assumption.
Qed.

(** Two rows of two values give two samples; three values on one line are
    refused. *)
Lemma read_data_csv_pairing_witness :
  (exists z,
      read_data_csv (repeat "; header
" 10 ++ ["0.5,-0.25
"; "3,4
"])%list = Ok z
      /\ (2 * List.length z = 4)%nat
      /\ [Finite (1 # 2); Finite (-1 # 4); Finite 3; Finite 4]
         = List.concat (map (fun p => [fst p; snd p]) z)
      /\ forall k re im,
           nth_error z k = Some (re, im) ->
           nth_error [Finite (1 # 2); Finite (-1 # 4); Finite 3; Finite 4]
             (2 * k) = Some re
           /\ nth_error [Finite (1 # 2); Finite (-1 # 4); Finite 3; Finite 4]
                (2 * k + 1) = Some im)
  /\ read_data_csv (repeat "; header
" 10 ++ ["0.5,-0.25,1
"])%list
     = Err ValueError.
Proof.
  split.
  - refine (proj1 (read_data_csv_pairing _
                     (Mat [[Finite (1 # 2); Finite (-1 # 4)];
                           [Finite 3; Finite 4]]) _) _);
      vm_compute; reflexivity.
  - refine (proj2 (read_data_csv_pairing _
                     (Vec [Finite (1 # 2); Finite (-1 # 4); Finite 1]) _) _);
      vm_compute; reflexivity.
Defined.

(** ** parse_filename: fields and what follows them *)

Lemma split_no_separator (sep : ascii) (s : string) :
  forallb (fun c => negb (Ascii.eqb c sep)) (list_ascii_of_string s) = true ->
  Str.split sep s = [s].
Proof.
  induction s as [| c s IH]; cbn [list_ascii_of_string forallb Str.split].
  - reflexivity.
  - intros H. apply andb_prop in H. destruct H as [Hc Hs].
    apply negb_true_iff in Hc. rewrite Hc, (IH Hs). reflexivity.
Qed.

(** The fields of two strings joined by the separator. *)
Lemma split_joined (sep : ascii) (a b : string) :
  Str.split sep (a ++ String sep b)
  = (Str.split sep a ++ Str.split sep b)%list.
Proof.
  induction a as [| c a IH]; cbn [append Str.split].
  - rewrite Ascii.eqb_refl. reflexivity.
  - destruct (Ascii.eqb c sep); [ rewrite IH; reflexivity | ].
    rewrite IH. destruct (Str.split sep a) as [| h t] eqn:E.
    + destruct (split_nonempty sep a E).
    + reflexivity.
Qed.

(** The first field and the rest of a string with two fields or more. *)
Lemma split_head (sep : ascii) (s d f : string) (fs : list string) :
  Str.split sep s = d :: f :: fs ->
  forallb (fun c => negb (Ascii.eqb c sep)) (list_ascii_of_string d) = true
  /\ exists rest, s = (d ++ String sep rest)%string
                  /\ Str.split sep rest = f :: fs.
Proof.
  revert d. induction s as [| c s IH]; intros d; cbn [Str.split].
  - discriminate.
  - destruct (Ascii.eqb c sep) eqn:Ec.
    + intros E. injection E as <- E. apply Ascii.eqb_eq in Ec. subst c.
      split; [ reflexivity | ]. exists s. split; [ reflexivity | exact E ].
    + destruct (Str.split sep s) as [| h t] eqn:Es; [ discriminate | ].
      intros E. injection E as <- ->.
      destruct (IH h eq_refl) as [Hh [rest [-> Hr]]].
      split.
      * cbn [list_ascii_of_string forallb]. rewrite Ec, Hh. reflexivity.
      * exists rest. split; [ reflexivity | exact Hr ].
Qed.

(** A name without an underscore has a single field, and the look-up of
    the second one raises [IndexError]. *)
Theorem parse_filename_one_field (filename : string) :
  no_underscore filename = true ->
  parse_filename filename = Err IndexError.
Proof.
  intros H. unfold parse_filename.
  rewrite (split_no_separator "_" filename H). reflexivity.
Qed.

Lemma parse_filename_one_field_witness :
  parse_filename "58Ni26+-374MeVu-250uA.tiq" = Err IndexError.
Proof.
  apply parse_filename_one_field. reflexivity.
Defined.

(** Whatever is returned as the description is the file name up to its
    first underscore. *)
Theorem parse_filename_description (filename descr : string)
  (energy current : pyfloat) :
  parse_filename filename = Ok (descr, energy, current) ->
  no_underscore descr = true
  /\ exists rest, filename = (descr ++ String "_" rest)%string.
Proof.
  unfold parse_filename.
  destruct (Str.split "_" filename) as [| d [| f1 fs]] eqn:E;
    cbn [nth_error or_raise bind]; try discriminate.
  destruct (split_head "_" filename d f1 fs E) as [Hd [rest [Hr _]]].
  destruct (Num.float_of_string (Str.replace "MeVu" "e6" f1));
    cbn [or_raise bind]; [ | discriminate ].
  destruct fs as [| f2 fs]; cbn [nth_error or_raise bind]; [ discriminate | ].
  destruct (Num.float_of_string (Str.replace "uA" "e-6" f2));
    cbn [or_raise bind]; [ | discriminate ].
  intros H. injection H as <- _ _.
  split; [ exact Hd | exists rest; exact Hr ].
Qed.

Lemma parse_filename_description_witness :
  no_underscore "58Ni26+" = true
  /\ exists rest,
       "58Ni26+_374MeVu_250uA_pos_0_0.tiq"
       = ("58Ni26+" ++ String "_" rest)%string.
Proof.
  apply (parse_filename_description "58Ni26+_374MeVu_250uA_pos_0_0.tiq"
           "58Ni26+" (Finite 374000000) (Finite (1 # 4000))).
  reflexivity.
Defined.

(** Only the first three fields are read: a name that is parsed gives the
    same result with anything appended after one more underscore. *)
Theorem parse_filename_suffix (filename extra : string)
  (r : string * pyfloat * pyfloat) :
  parse_filename filename = Ok r ->
  parse_filename (filename ++ String "_" extra) = Ok r.
Proof.
  unfold parse_filename. rewrite split_joined.
  destruct (Str.split "_" filename) as [| d [| f1 [| f2 fs]]];
    cbn [nth_error or_raise bind app]; try discriminate.
  - destruct (Num.float_of_string (Str.replace "MeVu" "e6" f1));
      cbn [or_raise bind]; discriminate.
  - intros H. exact H.
Qed.

Lemma parse_filename_suffix_witness :
  parse_filename ("58Ni26+_374MeVu_250uA" ++ String "_" "pos_0_0.tiq")
  = Ok ("58Ni26+", Finite 374000000, Finite (1 # 4000)).
Proof.
  apply (parse_filename_suffix "58Ni26+_374MeVu_250uA" "pos_0_0.tiq").
  reflexivity.
Defined.
